(** * Field Cognitive Assistant: the RAG pipeline, embedded and verified

    A shallow embedding of [app/services/rag_pipeline.py] and
    [app/services/azure_openai_client.py]: the context budgeting loop, the
    generation gateway with its temperature retry and error classification,
    and the two orchestration modes (blocking and streaming). *)

From Stdlib Require Import String Ascii DecimalString.
From Stdlib Require Import ZArith NArith List Bool Lia Floats.
Import ListNotations.
Open Scope Z_scope.

(** ** Python values

    A Python [str] is a sequence of Unicode code points; [len], slicing with
    possibly negative bounds, [in], [strip] and [join] follow CPython. *)
Module Py.

Definition str : Type := list N.

(** Code points of a UTF-8 byte sequence (well-formed input assumed). *)
Fixpoint decode_utf8 (bytes : list N) : str :=
  match bytes with
  | [] => []
  | b0 :: r1 =>
      if (b0 <? 128)%N then b0 :: decode_utf8 r1
      else
        match r1 with
        | [] => []
        | b1 :: r2 =>
            if (b0 <? 224)%N then
              ((b0 - 192) * 64 + (b1 - 128))%N :: decode_utf8 r2
            else
              match r2 with
              | [] => []
              | b2 :: r3 =>
                  if (b0 <? 240)%N then
                    ((b0 - 224) * 4096 + (b1 - 128) * 64 + (b2 - 128))%N
                      :: decode_utf8 r3
                  else
                    match r3 with
                    | [] => []
                    | b3 :: r4 =>
                        ((b0 - 240) * 262144 + (b1 - 128) * 4096
                         + (b2 - 128) * 64 + (b3 - 128))%N :: decode_utf8 r4
                    end
              end
        end
  end.

(** A string literal of the source, written in UTF-8 as the source has it. *)
Definition lit (s : string) : str :=
  decode_utf8 (List.map N_of_ascii (list_ascii_of_string s)).

(** The line feed of an escaped newline in a literal. *)
Definition NL : str := [10%N].

Definition len {A : Type} (s : list A) : Z := Z.of_nat (List.length s).

(** Truthiness of a sequence: [if s:]. *)
Definition truthy {A : Type} (s : list A) : bool :=
  match s with [] => false | _ :: _ => true end.

(** The clamping of a slice bound: negative bounds count from the end. *)
Definition clamp (n : Z) (i : Z) : Z :=
  if i <? 0 then Z.max (n + i) 0 else Z.min i n.

(** [s[:j]] *)
Definition slice_to {A : Type} (s : list A) (j : Z) : list A :=
  firstn (Z.to_nat (clamp (len s) j)) s.

(** [s[i:]] *)
Definition slice_from {A : Type} (s : list A) (i : Z) : list A :=
  skipn (Z.to_nat (clamp (len s) i)) s.

Fixpoint startswith (p s : str) : bool :=
  match p, s with
  | [], _ => true
  | _ :: _, [] => false
  | a :: p', b :: s' => N.eqb a b && startswith p' s'
  end.

(** [p in s] *)
Fixpoint contains (p s : str) : bool :=
  startswith p s ||
  match s with
  | [] => false
  | _ :: s' => contains p s'
  end.

(** The code points [str.strip()] removes (CPython's whitespace table). *)
Definition isspace (c : N) : bool :=
  ((9 <=? c) && (c <=? 13) || (28 <=? c) && (c <=? 32) ||
   (c =? 133) || (c =? 160) || (c =? 5760) ||
   (8192 <=? c) && (c <=? 8202) || (c =? 8232) || (c =? 8233) ||
   (c =? 8239) || (c =? 8287) || (c =? 12288))%N.

Fixpoint lstrip (s : str) : str :=
  match s with
  | [] => []
  | c :: s' => if isspace c then lstrip s' else s
  end.

Definition rstrip (s : str) : str := rev (lstrip (rev s)).

Definition strip (s : str) : str := rstrip (lstrip s).

(** [sep.join(parts)] *)
Fixpoint join (sep : str) (parts : list str) : str :=
  match parts with
  | [] => []
  | [p] => p
  | p :: rest => p ++ sep ++ join sep rest
  end.

(** [str(n)] for a non-negative integer. *)
Definition str_of_nat (n : nat) : str :=
  lit (DecimalString.NilZero.string_of_uint (Nat.to_uint n)).

(** [d.get(key, default)] on a field that may be absent. *)
Definition get {A : Type} (field : option A) (default : A) : A :=
  match field with
  | Some v => v
  | None => default
  end.

End Py.
Import Py.

(** The builtins whose tables are not reproduced here: Unicode case mapping
    ([str.lower]) and the shortest round-trip printing of a float ([repr]). *)
Class PyBuiltins : Type := {
  lower : str -> str;
  repr_float : float -> str
}.

(** ** Documents returned by the search gateway

    A document is a dict with the keys [content], [source], [path] and
    [score]; [None] stands for an absent key. *)
Record doc : Type := {
  doc_content : option str;
  doc_source : option str;
  doc_path : option str;
  doc_score : option float
}.

(** ** Context budgeting (rag_pipeline.py, lines 76-108 and 196-221) *)

Definition TRUNCATED_MIDDLE : str := lit "... [texto truncado] ...".
Definition TRUNCATED_END : str := lit "... [texto truncado]".

(** How the [for doc in search_results] loop was left. *)
Inductive loop_exit : Type :=
| Exhausted      (* every document was visited *)
| BudgetBreak    (* [break] with at least one chunk already accepted *)
| HardTruncated. (* first chunk cut to the total budget, then [break] *)

Section ContextBudget.

Variables (max_chars_per_chunk max_total_context : Z).

(** Lines 91-94: keep the head and the tail of a long chunk. *)
Definition truncate_middle (content : str) : str :=
  if len content >? max_chars_per_chunk then
    let half := max_chars_per_chunk / 2 in
    slice_to content half ++ TRUNCATED_MIDDLE ++ slice_from content (- half)
  else content.

(** Lines 84-108, with the two accumulators as arguments. *)
Fixpoint budget_loop (search_results : list doc)
    (context_chunks : list str) (total_chars : Z) : list str * loop_exit :=
  match search_results with
  | [] => (context_chunks, Exhausted)
  | d :: rest =>
      let content := get (doc_content d) [] in
      if negb (truthy content) then
        budget_loop rest context_chunks total_chars
      else
        let content := truncate_middle content in
        let chunk_size := len content in
        if total_chars + chunk_size >? max_total_context then
          if truthy context_chunks then (context_chunks, BudgetBreak)
          else
            let content := slice_to content max_total_context ++ TRUNCATED_END in
            (context_chunks ++ [content], HardTruncated)
        else
          budget_loop rest (context_chunks ++ [content])
            (total_chars + chunk_size)
  end.

End ContextBudget.

Definition MAX_CHARS_PER_CHUNK : Z := 4000.
Definition MAX_TOTAL_CONTEXT : Z := 12000.

Definition truncate_chunk : str -> str := truncate_middle MAX_CHARS_PER_CHUNK.

Definition run_budget (search_results : list doc) : list str * loop_exit :=
  budget_loop MAX_CHARS_PER_CHUNK MAX_TOTAL_CONTEXT search_results [] 0.

Definition build_context_chunks (search_results : list doc) : list str :=
  fst (run_budget search_results).

(** Combined length of a fragment list. *)
Definition total_len (chunks : list str) : Z :=
  fold_right (fun c acc => len c + acc) 0 chunks.


(** ** Effects

    An exception is represented by its message, [str(e)].  The state threaded
    through the gateway is the log of the calls that reached the generation
    backend ([chat.completions.create]), oldest first. *)

Inductive outcome (A : Type) : Type :=
| Returned (value : A)
| Raised (message : str).
Arguments Returned {A} value.
Arguments Raised {A} message.

Record chat_message : Type := {
  role : str;
  content : str
}.

(** The keyword arguments of [chat.completions.create]; an absent key is
    [None] (or [false] for ["stream"]). *)
Record call_params : Type := {
  cp_model : str;
  cp_messages : list chat_message;
  cp_max_completion_tokens : Z;
  cp_stream : bool;
  cp_temperature : option float
}.

Definition call_log : Type := list call_params.

Definition Gen (A : Type) : Type := call_log -> outcome A * call_log.

Definition ret {A : Type} (a : A) : Gen A := fun log => (Returned a, log).

Definition raise {A : Type} (message : str) : Gen A :=
  fun log => (Raised message, log).

Definition bind {A B : Type} (m : Gen A) (k : A -> Gen B) : Gen B :=
  fun log =>
    match m log with
    | (Returned a, log') => k a log'
    | (Raised e, log') => (Raised e, log')
    end.

(** [try: body / except Exception as e: handler(str(e))] *)
Definition try_except {A : Type} (body : Gen A) (handler : str -> Gen A)
  : Gen A :=
  fun log =>
    match body log with
    | (Returned a, log') => (Returned a, log')
    | (Raised e, log') => handler e log'
    end.

(** A call that does not touch the generation backend. *)
Definition pure_call {A : Type} (r : outcome A) : Gen A := fun log => (r, log).

Declare Scope gen_scope.
Delimit Scope gen_scope with gen.
Notation "x <- m ;; k" := (bind m (fun x => k))
  (at level 61, m at next level, right associativity) : gen_scope.

(** A generator, consumed to the end: the chunks it yielded, in order, and
    how it finished (its [return] value or the exception that left it). *)
Definition Generator (A : Type) : Type :=
  call_log -> (list str * outcome A) * call_log.

Definition gret {A : Type} (a : A) : Generator A :=
  fun log => (([], Returned a), log).

Definition gyield (chunk : str) : Generator unit :=
  fun log => (([chunk], Returned tt), log).

Definition graise {A : Type} (message : str) : Generator A :=
  fun log => (([], Raised message), log).

Definition gbind {A B : Type} (m : Generator A) (k : A -> Generator B)
  : Generator B :=
  fun log =>
    match m log with
    | ((ys, Returned a), log') =>
        match k a log' with
        | ((ys', r), log'') => ((ys ++ ys', r), log'')
        end
    | ((ys, Raised e), log') => ((ys, Raised e), log')
    end.

(** [try/except] around a generator body: what was yielded before the
    exception stays yielded. *)
Definition gtry {A : Type} (body : Generator A) (handler : str -> Generator A)
  : Generator A :=
  fun log =>
    match body log with
    | ((ys, Returned a), log') => ((ys, Returned a), log')
    | ((ys, Raised e), log') =>
        match handler e log' with
        | ((ys', r), log'') => ((ys ++ ys', r), log'')
        end
    end.

Definition lift {A : Type} (m : Gen A) : Generator A :=
  fun log => match m log with (r, log') => (([], r), log') end.

Declare Scope generator_scope.
Delimit Scope generator_scope with generator.
Notation "x <- m ;; k" := (gbind m (fun x => k))
  (at level 61, m at next level, right associativity) : generator_scope.
Notation "m ;;; k" := (gbind m (fun _ => k))
  (at level 61, right associativity) : generator_scope.

(** ** Search gateway (azure_search_client.py) *)

(** A raw hit of the index. *)
Record search_hit : Type := {
  hit_content : option str;
  hit_metadata_storage_name : option str;
  hit_metadata_storage_path : option str;
  hit_search_score : option float
}.

(** The SDK's [SearchClient.search], iterated to the end. *)
Record SearchClient : Type := {
  sdk_search : str -> Z -> outcome (list search_hit)
}.

Record AzureSearchClient : Type := {
  search_sdk : SearchClient
}.

Definition doc_of_hit (result : search_hit) : doc :=
  {| doc_content := Some (get (hit_content result) []);
     doc_source := Some (get (hit_metadata_storage_name result) (lit "Unknown"));
     doc_path := Some (get (hit_metadata_storage_path result) []);
     doc_score := Some (get (hit_search_score result) 0%float) |}.

Definition search_documents (self : AzureSearchClient) (query : str)
    (top_k : Z) : outcome (list doc) :=
  match sdk_search (search_sdk self) query top_k with
  | Returned results => Returned (List.map doc_of_hit results)
  | Raised e => Raised (lit "Error al buscar en Azure AI Search: " ++ e)
  end.

Definition search_documents_text_only (self : AzureSearchClient)
    (query : str) (top_k : Z) : outcome (list doc) :=
  search_documents self query top_k.

(** ** Generation gateway (azure_openai_client.py) *)

(** [response.choices[i].message.content], which the backend may leave
    [None]. *)
Record choice : Type := {
  message_content : option str
}.

Record chat_completion : Type := {
  choices : list choice
}.

Record chunk_delta : Type := {
  delta_content : option str
}.

Record chunk_choice : Type := {
  delta : option chunk_delta
}.

Record completion_chunk : Type := {
  chunk_choices : list chunk_choice
}.

(** The iterator a streaming call returns: the chunks it delivers and, when
    it fails on the way, the exception raised after the last of them. *)
Record chunk_stream : Type := {
  stream_chunks : list completion_chunk;
  stream_fault : option str
}.

(** The SDK's [chat.completions.create].  What it answers may depend on the
    calls made before; [create_stream] is the same method called with
    ["stream": True]. *)
Record AzureOpenAI : Type := {
  create : call_log -> call_params -> outcome chat_completion;
  create_stream : call_log -> call_params -> outcome chunk_stream
}.

Record AzureOpenAIClient : Type := {
  deployment_name : str;
  client : AzureOpenAI
}.

Definition chat_completions_create (sdk : AzureOpenAI) (params : call_params)
  : Gen chat_completion :=
  fun log => (create sdk log params, log ++ [params]).

Definition chat_completions_create_stream (sdk : AzureOpenAI)
    (params : call_params) : Gen chunk_stream :=
  fun log => (create_stream sdk log params, log ++ [params]).

(** Lines 49-52 and 145-148. *)
Definition context_text (context_chunks : list str) : str :=
  join (NL ++ NL)
    (List.map
       (fun ic : nat * str =>
          lit "[Fragmento " ++ str_of_nat (fst ic + 1) ++ lit "]" ++ NL ++ snd ic)
       (combine (seq 0 (List.length context_chunks)) context_chunks)).

(** Lines 55-63 and 151-159. *)
Definition user_prompt_with_context (context_chunks : list str)
    (user_message : str) : str :=
  lit "Contexto de los manuales técnicos:" ++ NL ++ NL
  ++ context_text context_chunks ++ NL ++ NL
  ++ lit "---" ++ NL ++ NL
  ++ lit "Pregunta del usuario: " ++ user_message ++ NL ++ NL
  ++ lit "Basándote en el contexto proporcionado, responde la pregunta del usuario. Si encuentras información relevante, aunque sea parcial, compártela. Si el contexto menciona algo relacionado con la pregunta, inclúyelo en tu respuesta.".

Definition chat_messages (system_prompt user_message : str)
    (context_chunks : list str) : list chat_message :=
  [ {| role := lit "system"; content := system_prompt |};
    {| role := lit "user";
       content := user_prompt_with_context context_chunks user_message |} ].

(** [call_params["temperature"] = temperature] *)
Definition set_temperature (params : call_params) (temperature : float)
  : call_params :=
  {| cp_model := cp_model params;
     cp_messages := cp_messages params;
     cp_max_completion_tokens := cp_max_completion_tokens params;
     cp_stream := cp_stream params;
     cp_temperature := Some temperature |}.

(** [call_params.pop("temperature", None)] *)
Definition pop_temperature (params : call_params) : call_params :=
  {| cp_model := cp_model params;
     cp_messages := cp_messages params;
     cp_max_completion_tokens := cp_max_completion_tokens params;
     cp_stream := cp_stream params;
     cp_temperature := None |}.

(** Lines 73-82 (blocking, [streaming = false]) and 168-177 (streaming). *)
Definition build_call_params (self : AzureOpenAIClient) (streaming : bool)
    (system_prompt user_message : str) (context_chunks : list str)
    (temperature : float) : call_params :=
  let call_params :=
    {| cp_model := deployment_name self;
       cp_messages := chat_messages system_prompt user_message context_chunks;
       cp_max_completion_tokens := 800;
       cp_stream := streaming;
       cp_temperature := None |} in
  if negb (temperature =? 1)%float then set_temperature call_params temperature
  else call_params.

Definition RATE_LIMIT_ERROR : str :=
  lit "Límite de tasa alcanzado: Has excedido el límite de tokens por minuto de tu plan de Azure OpenAI. "
  ++ lit "Por favor, espera 60 segundos antes de intentar de nuevo. "
  ++ lit "Para aumentar el límite, visita: https://aka.ms/oai/quotaincrease".

Definition STREAM_RATE_LIMIT_CHUNK : str :=
  NL ++ NL ++ lit "⚠️ **Límite de tasa alcanzado**: Has excedido el límite de tokens por minuto. Espera 60 segundos antes de intentar de nuevo.".

Definition NO_RESPONSE : str := lit "No se pudo generar una respuesta.".

Section Gateway.

Context `{PyBuiltins}.

(** Lines 90 and 185. *)
Definition temperature_unsupported (error_str : str) : bool :=
  contains (lit "temperature") (lower error_str)
  && contains (lit "unsupported") (lower error_str).

(** Lines 85-96 and 180-189: the backend call and its single retry. *)
Definition create_with_retry {A : Type} (create : call_params -> Gen A)
    (call_params : call_params) : Gen A :=
  try_except (create call_params)
    (fun error_str =>
       if temperature_unsupported error_str then
         create (pop_temperature call_params)
       else raise error_str).

(** Lines 109 and 203. *)
Definition is_rate_limit (error_str : str) : bool :=
  contains (lit "429") error_str
  || contains (lit "RateLimitReached") error_str
  || contains (lit "rate limit") (lower error_str).

(** Lines 98-102. *)
Definition response_text (response : chat_completion) : outcome str :=
  match choices response with
  | first :: _ =>
      match message_content first with
      | Some text => Returned (strip text)
      | None => Raised (lit "'NoneType' object has no attribute 'strip'")
      end
  | [] => Returned NO_RESPONSE
  end.

(** Lines 104-122: the message of the exception raised in place of the
    caught one. *)
Definition classified_error (error_str : str) : str :=
  if is_rate_limit error_str then RATE_LIMIT_ERROR
  else if contains (lit "400") error_str then
    lit "Error de solicitud: " ++ error_str
  else lit "Error al generar respuesta con Azure OpenAI: " ++ error_str.

Definition generate_response (self : AzureOpenAIClient)
    (system_prompt user_message : str) (context_chunks : list str)
    (temperature : float) : Gen str :=
  try_except
    (let call_params :=
       build_call_params self false system_prompt user_message context_chunks
         temperature in
     response <-
       create_with_retry (chat_completions_create (client self)) call_params ;;
     pure_call (response_text response))%gen
    (fun error_str => raise (classified_error error_str)).

(** Lines 198-212: the chunk yielded in place of the caught exception. *)
Definition stream_error_chunk (error_str : str) : str :=
  if is_rate_limit error_str then STREAM_RATE_LIMIT_CHUNK
  else if contains (lit "400") error_str then
    NL ++ NL ++ lit "❌ **Error de solicitud**: " ++ error_str
  else NL ++ NL ++ lit "❌ **Error**: " ++ error_str.

(** Lines 193-196: one chunk of the backend stream. *)
Definition relay_chunk (chunk : completion_chunk) : Generator unit :=
  match chunk_choices chunk with
  | first :: _ =>
      match delta first with
      | Some d =>
          match delta_content d with
          | Some text => if truthy text then gyield text else gret tt
          | None => gret tt
          end
      | None => gret tt
      end
  | [] => gret tt
  end.

Fixpoint for_each {A : Type} (items : list A) (body : A -> Generator unit)
  : Generator unit :=
  match items with
  | [] => gret tt
  | x :: rest => (body x ;;; for_each rest body)%generator
  end.

(** [for chunk in stream: body] over an iterator that may fail. *)
Definition for_stream (stream : chunk_stream)
    (body : completion_chunk -> Generator unit) : Generator unit :=
  (for_each (stream_chunks stream) body ;;;
   match stream_fault stream with
   | Some e => graise e
   | None => gret tt
   end)%generator.

Definition generate_response_stream (self : AzureOpenAIClient)
    (system_prompt user_message : str) (context_chunks : list str)
    (temperature : float) : Generator unit :=
  gtry
    (let call_params :=
       build_call_params self true system_prompt user_message context_chunks
         temperature in
     stream <-
       lift (create_with_retry (chat_completions_create_stream (client self))
               call_params) ;;
     for_stream stream relay_chunk)%generator
    (fun error_str => gyield (stream_error_chunk error_str)).

(** *** What the gateway makes of the last answer of the backend *)

Definition and_then {A B : Type} (o : outcome A) (k : A -> outcome B)
  : outcome B :=
  match o with
  | Returned a => k a
  | Raised e => Raised e
  end.

(** Blocking mode: the text of the response, or the classified error. *)
Definition blocking_result (o : outcome chat_completion) : outcome str :=
  match and_then o response_text with
  | Returned text => Returned text
  | Raised e => Raised (classified_error e)
  end.

(** The text a chunk contributes to the stream, if any. *)
Definition chunk_text (chunk : completion_chunk) : list str :=
  match chunk_choices chunk with
  | first :: _ =>
      match delta first with
      | Some d =>
          match delta_content d with
          | Some text => if truthy text then [text] else []
          | None => []
          end
      | None => []
      end
  | [] => []
  end.

(** Streaming mode: the chunks relayed, closed by a diagnostic chunk when
    the call or the iteration failed. *)
Definition streaming_result (o : outcome chunk_stream) : list str :=
  match o with
  | Returned stream =>
      flat_map chunk_text (stream_chunks stream)
      ++ match stream_fault stream with
         | Some e => [stream_error_chunk e]
         | None => []
         end
  | Raised e => [stream_error_chunk e]
  end.

End Gateway.

(** ** RAG orchestrator (rag_pipeline.py) *)

Record RAGPipeline : Type := {
  search_client : AzureSearchClient;
  openai_client : AzureOpenAIClient;
  system_prompt : str
}.

(** One entry of ["sources"]: the keys [source] and [score], and [path] when
    the document has it. *)
Record source_info : Type := {
  info_source : str;
  info_score : float;
  info_path : option str
}.

(** The dict [rag_answer] returns. *)
Record answer_result : Type := {
  answer : str;
  sources : list source_info
}.

(** Lines 132-138 and 244-249. *)
Definition source_info_of (d : doc) : source_info :=
  {| info_source := get (doc_source d) (lit "Unknown");
     info_score := get (doc_score d) 0%float;
     info_path := doc_path d |}.

(** Lines 130-140 and 242-250, with the list being built as accumulator. *)
Fixpoint sources_loop (search_results : list doc) (sources : list source_info)
  : list source_info :=
  match search_results with
  | [] => sources
  | d :: rest => sources_loop rest (sources ++ [source_info_of d])
  end.

Definition build_sources (search_results : list doc) : list source_info :=
  sources_loop search_results [].

Definition NO_RESULTS_ANSWER : str :=
  lit "No se encontró información relevante en los manuales para responder tu pregunta. Por favor, intenta reformularla o usar términos más específicos.".

Section Pipeline.

Context `{PyBuiltins}.

(** The printing of [[doc.get('score', 0) for doc in search_results[:3]]]. *)
Definition repr_scores (search_results : list doc) : str :=
  lit "["
  ++ join (lit ", ")
       (List.map
          (fun d : doc =>
             match doc_score d with
             | Some s => repr_float s
             | None => lit "0"
             end)
          (slice_to search_results 3))
  ++ lit "]".

(** Lines 112-116 and 224-227. *)
Definition no_context_answer (search_results : list doc) : str :=
  let debug_info :=
    lit "Se encontraron " ++ str_of_nat (List.length search_results)
    ++ lit " documentos pero no contenían texto útil." in
  let debug_info :=
    if truthy search_results then
      debug_info ++ lit " Scores: " ++ repr_scores search_results
    else debug_info in
  debug_info
  ++ lit " Por favor, intenta otra pregunta o reformula con términos más específicos.".

(** Lines 152 and 256. *)
Definition mentions_rate_limit (error_message : str) : bool :=
  contains (lit "Límite de tasa alcanzado") error_message
  || contains (lit "rate limit") (lower error_message).

Definition rate_limit_answer (error_message : str) : str :=
  lit "⚠️ **Límite de tasa alcanzado**" ++ NL ++ NL ++ error_message ++ NL ++ NL
  ++ lit "Por favor, espera un momento antes de hacer otra pregunta.".

Definition error_answer (error_message : str) : str :=
  lit "❌ **Error al procesar tu pregunta**" ++ NL ++ NL ++ error_message
  ++ NL ++ NL
  ++ lit "Por favor, intenta de nuevo o verifica tu configuración de Azure.".

Definition rag_answer (self : RAGPipeline) (user_question : str) (top_k : Z)
    (temperature : float) : Gen answer_result :=
  try_except
    (search_results <-
       pure_call (search_documents_text_only (search_client self)
                    user_question top_k) ;;
     if negb (truthy search_results) || (len search_results =? 0) then
       ret {| answer := NO_RESULTS_ANSWER; sources := [] |}
     else
       let context_chunks := build_context_chunks search_results in
       if negb (truthy context_chunks) then
         ret {| answer := no_context_answer search_results; sources := [] |}
       else
         answer <-
           generate_response (openai_client self) (system_prompt self)
             user_question context_chunks temperature ;;
         ret {| answer := answer; sources := build_sources search_results |})%gen
    (fun error_message =>
       if mentions_rate_limit error_message then
         ret {| answer := rate_limit_answer error_message; sources := [] |}
       else
         ret {| answer := error_answer error_message; sources := [] |}).

(** Lines 231-239: relay every chunk and accumulate [full_answer]. *)
Definition relay (chunks : Generator unit) : Generator str :=
  fun log =>
    match chunks log with
    | ((ys, Returned _), log') => ((ys, Returned (List.concat ys)), log')
    | ((ys, Raised e), log') => ((ys, Raised e), log')
    end.

(** The generator returns the ["sources"] entry of its final dict. *)
Definition rag_answer_stream (self : RAGPipeline) (user_question : str)
    (top_k : Z) (temperature : float) : Generator (list source_info) :=
  gtry
    (search_results <-
       lift (pure_call (search_documents_text_only (search_client self)
                          user_question top_k)) ;;
     if negb (truthy search_results) || (len search_results =? 0) then
       (gyield NO_RESULTS_ANSWER ;;; gret [])
     else
       let context_chunks := build_context_chunks search_results in
       if negb (truthy context_chunks) then
         (gyield (no_context_answer search_results) ;;; gret [])
       else
         (full_answer <-
            relay (generate_response_stream (openai_client self)
                     (system_prompt self) user_question context_chunks
                     temperature) ;;
          gret (build_sources search_results)))%generator
    (fun error_message =>
       ((if mentions_rate_limit error_message then
           gyield (rate_limit_answer error_message)
         else gyield (error_answer error_message)) ;;;
        gret [])%generator).

End Pipeline.

(** ** Concrete runtime for evaluation

    ASCII-only case folding and a placeholder float printer, enough to run
    the pipeline on ASCII backend messages. *)

Definition ascii_lower (s : str) : str :=
  List.map (fun c => if ((65 <=? c) && (c <=? 90))%N then (c + 32)%N else c) s.

Definition ascii_builtins : PyBuiltins :=
  {| lower := ascii_lower; repr_float := fun _ => lit "0.0" |}.

(** ** Concrete inputs *)

(** [n] distinct printable code points. *)
Definition sample_text (n : nat) : str := List.map N.of_nat (seq 32 n).

(** A normalized document as the search gateway builds it. *)
Definition manual_doc (text : str) : doc :=
  {| doc_content := Some text;
     doc_source := Some (lit "manual.pdf");
     doc_path := Some (lit "/manuals/manual.pdf");
     doc_score := Some 1.5%float |}.

(** A raw hit whose normalization is [manual_doc text]. *)
Definition manual_hit (text : str) : search_hit :=
  {| hit_content := Some text;
     hit_metadata_storage_name := Some (lit "manual.pdf");
     hit_metadata_storage_path := Some (lit "/manuals/manual.pdf");
     hit_search_score := Some 1.5%float |}.

(** A pipeline over a search index that always returns [hits] and a
    generation backend with the given behaviour. *)
Definition pipeline_over (hits : list search_hit)
    (blocking : call_log -> call_params -> outcome chat_completion)
    (streaming : call_log -> call_params -> outcome chunk_stream)
  : RAGPipeline :=
  {| search_client :=
       {| search_sdk := {| sdk_search := fun _ _ => Returned hits |} |};
     openai_client :=
       {| deployment_name := lit "gpt-deployment";
          client := {| create := blocking; create_stream := streaming |} |};
     system_prompt := lit "Eres un asistente." |}.

Definition completion_of (text : str) : chat_completion :=
  {| choices := [ {| message_content := Some text |} ] |}.

Definition chunk_of (text : str) : completion_chunk :=
  {| chunk_choices := [ {| delta := Some {| delta_content := Some text |} |} ] |}.

Definition stream_of (texts : list str) : chunk_stream :=
  {| stream_chunks := List.map chunk_of texts; stream_fault := None |}.

(** A backend that answers every call the same way. *)
Definition always {A : Type} (o : outcome A)
  : call_log -> call_params -> outcome A :=
  fun _ _ => o.

(** A model that only accepts the default temperature. *)
Definition default_temperature_only {A : Type} (reply : A)
  : call_log -> call_params -> outcome A :=
  fun _ params =>
    match cp_temperature params with
    | Some _ =>
        Raised (lit "Error code: 400 - Unsupported value: 'temperature' does not support this value with this model. Only the default (1) value is supported.")
    | None => Returned reply
    end.

Definition question : str := lit "¿Cómo calibro el sensor de oxígeno?".

Definition ok_backend : call_log -> call_params -> outcome chat_completion :=
  always (Returned (completion_of (lit "Paso 1."))).

Definition ok_stream : call_log -> call_params -> outcome chunk_stream :=
  always (Returned (stream_of [lit "Paso"; lit " 1."])).

(** The search finds nothing. *)
Definition no_hits_pipeline : RAGPipeline := pipeline_over [] ok_backend ok_stream.

(** The search finds one document, whose content is empty. *)
Definition empty_content_pipeline : RAGPipeline :=
  pipeline_over [manual_hit []] ok_backend ok_stream.

(** Four documents of 4000 characters each: the fourth exceeds the budget. *)
Definition four_hits : list search_hit :=
  [ manual_hit (sample_text (Z.to_nat 4000));
    manual_hit (sample_text (Z.to_nat 4000));
    manual_hit (sample_text (Z.to_nat 4000));
    manual_hit (sample_text (Z.to_nat 4000)) ].

Definition four_docs_pipeline : RAGPipeline :=
  pipeline_over four_hits ok_backend ok_stream.

(** The backend is throttled: every call fails with a 429. *)
Definition throttle_error : str :=
  lit "Error code: 429 - Requests to the ChatCompletions_Create Operation have exceeded the token limit of your current pricing tier.".

Definition throttled_pipeline : RAGPipeline :=
  pipeline_over [manual_hit (sample_text 5)]
    (always (Raised throttle_error)) (always (Raised throttle_error)).

(** The backend text starts and ends with white space. *)
Definition padded_reply : str := lit "  Paso 1. ".

Definition padded_pipeline : RAGPipeline :=
  pipeline_over [manual_hit (sample_text 5)]
    (always (Returned (completion_of padded_reply)))
    (always (Returned (stream_of [lit "  Paso"; lit " 1. "]))).

(** ** Views used in the statements *)

(** The text a backend stream carries: its chunk texts, concatenated. *)
Definition stream_text (chunks : list completion_chunk) : str :=
  List.concat (flat_map chunk_text chunks).

(** The guidance the two rate-limit messages share. *)
Definition RATE_LIMIT_GUIDANCE : str :=
  lit "spera 60 segundos antes de intentar de nuevo.".

Section Views.

Context `{PyBuiltins}.

(** The answer on the generation path of the blocking mode. *)
Definition generated_answer (docs : list doc) (o : outcome str)
  : answer_result :=
  match o with
  | Returned text => {| answer := text; sources := build_sources docs |}
  | Raised e =>
      {| answer := if mentions_rate_limit e then rate_limit_answer e
                   else error_answer e;
         sources := [] |}
  end.

End Views.

(** The contents the loop does not skip, in rank order. *)
Definition usable_contents (search_results : list doc) : list str :=
  filter truthy (List.map (fun d => get (doc_content d) []) search_results).

(** ** Configuration (config.py) *)

Record AzureSearchConfig : Type := {
  search_endpoint : option str;
  search_api_key : option str;
  search_index_name : option str
}.

Record AzureOpenAIConfig : Type := {
  openai_endpoint : option str;
  openai_api_key : option str;
  openai_deployment_name : option str
}.

Record AzureSpeechConfig : Type := {
  speech_api_key : option str;
  speech_region : option str;
  speech_language : str;
  speech_voice_name : option str
}.

Record AppConfig : Type := {
  azure_search : AzureSearchConfig;
  azure_openai : AzureOpenAIConfig;
  azure_speech : option AzureSpeechConfig;
  streamlit_port : option Z
}.

(** Truthiness of an [Optional[str]]: [None] and the empty string are
    falsy. *)
Definition truthy_value (value : option str) : bool :=
  match value with
  | Some s => truthy s
  | None => false
  end.

(** [value or default] *)
Definition or_default (value : option str) (default : str) : str :=
  match value with
  | Some s => if truthy s then s else default
  | None => default
  end.

(** The message of the [ValueError] of lines 63-66. *)
Definition missing_variable_error (var_name : str) : str :=
  lit "Variable de entorno requerida '" ++ var_name ++ lit "' no encontrada. "
  ++ lit "Por favor, crea un archivo .env basado en .env.example".

(** The required variables, in the order [load_config] reads them. *)
Definition REQUIRED_VARIABLES : list str :=
  [ lit "AZURE_SEARCH_ENDPOINT"; lit "AZURE_SEARCH_API_KEY";
    lit "AZURE_SEARCH_INDEX"; lit "AZURE_OPENAI_ENDPOINT";
    lit "AZURE_OPENAI_API_KEY"; lit "AZURE_OPENAI_DEPLOYMENT" ].

Section Config.

(** [os.getenv] over the process environment, and the builtin [int] on a
    string, which raises [ValueError] on what is not a number. *)
Variable getenv : str -> option str.
Variable int_of_str : str -> outcome Z.

(** Lines 47-67. *)
Definition get_env_var (var_name : str) (required : bool)
  : outcome (option str) :=
  let value := getenv var_name in
  if required && negb (truthy_value value) then
    Raised (missing_variable_error var_name)
  else Returned value.

(** Lines 70-122. *)
Definition load_config : outcome AppConfig :=
  and_then (get_env_var (lit "AZURE_SEARCH_ENDPOINT") true) (fun search_endpoint =>
  and_then (get_env_var (lit "AZURE_SEARCH_API_KEY") true) (fun search_api_key =>
  and_then (get_env_var (lit "AZURE_SEARCH_INDEX") true) (fun search_index =>
  and_then (get_env_var (lit "AZURE_OPENAI_ENDPOINT") true) (fun openai_endpoint =>
  and_then (get_env_var (lit "AZURE_OPENAI_API_KEY") true) (fun openai_api_key =>
  and_then (get_env_var (lit "AZURE_OPENAI_DEPLOYMENT") true) (fun openai_deployment =>
  and_then (get_env_var (lit "STREAMLIT_SERVER_PORT") false) (fun streamlit_port_str =>
  and_then
    (match streamlit_port_str with
     | Some s =>
         if truthy s then and_then (int_of_str s) (fun n => Returned (Some n))
         else Returned None
     | None => Returned None
     end) (fun streamlit_port =>
  and_then (get_env_var (lit "AZURE_SPEECH_API_KEY") false) (fun speech_api_key =>
  and_then (get_env_var (lit "AZURE_SPEECH_REGION") false) (fun speech_region =>
  and_then (get_env_var (lit "AZURE_SPEECH_LANGUAGE") false) (fun language_value =>
  let speech_language := or_default language_value (lit "es-ES") in
  and_then (get_env_var (lit "AZURE_SPEECH_VOICE") false) (fun speech_voice =>
  let azure_speech :=
    if truthy_value speech_api_key && truthy_value speech_region then
      Some {| speech_api_key := speech_api_key;
              speech_region := speech_region;
              speech_language := speech_language;
              speech_voice_name := speech_voice |}
    else None in
  Returned
    {| azure_search :=
         {| search_endpoint := search_endpoint;
            search_api_key := search_api_key;
            search_index_name := search_index |};
       azure_openai :=
         {| openai_endpoint := openai_endpoint;
            openai_api_key := openai_api_key;
            openai_deployment_name := openai_deployment |};
       azure_speech := azure_speech;
       streamlit_port := streamlit_port |})))))))))))).

End Config.

(** ** Speech gateway (azure_speech_client.py) *)

Definition bytes : Type := list N.

Inductive output_format : Type :=
| Audio16Khz128KBitRateMonoMp3.

(** The [speechsdk.SpeechConfig] the client holds and mutates. *)
Record SpeechConfig : Type := {
  subscription : option str;
  region : option str;
  speech_recognition_language : str;
  speech_synthesis_language : str;
  speech_synthesis_voice_name : str;
  speech_synthesis_output_format : option output_format
}.

(** Lines 13-36. *)
Definition speech_client_init (config : AzureSpeechConfig) : SpeechConfig :=
  {| subscription := speech_api_key config;
     region := speech_region config;
     speech_recognition_language := speech_language config;
     speech_synthesis_language := speech_language config;
     speech_synthesis_voice_name :=
       if startswith (lit "es") (speech_language config) then
         or_default (speech_voice_name config) (lit "es-ES-ElviraNeural")
       else or_default (speech_voice_name config) (lit "en-US-JennyNeural");
     speech_synthesis_output_format := None |}.

Inductive recognition_reason : Type :=
| RecognizedSpeech
| NoMatch
| RecognitionOther.

(** [cancellation_details], with its reason already printed. *)
Record cancellation_details : Type := {
  cancel_reason : str;
  cancel_error_details : str
}.

Record recognition_result : Type := {
  recognition_reason_of : recognition_reason;
  recognition_text : str;
  recognition_cancellation : option cancellation_details
}.

Inductive synthesis_reason : Type :=
| SynthesizingAudioCompleted
| SynthesisCanceled
| SynthesisOther (printed : str).

Record synthesis_result : Type := {
  synthesis_reason_of : synthesis_reason;
  audio_data : bytes;
  synthesis_cancellation : cancellation_details
}.

(** The calls into the speech SDK: building the recognizer or synthesizer
    and running it once; any of them may raise. *)
Record SpeechSDK : Type := {
  recognize_once_stream : SpeechConfig -> bytes -> outcome recognition_result;
  recognize_once_file : SpeechConfig -> str -> outcome recognition_result;
  speak_text : SpeechConfig -> str -> outcome synthesis_result;
  speak_text_to_file : SpeechConfig -> str -> str -> outcome synthesis_result
}.

Record AzureSpeechClient : Type := {
  speech_sdk : SpeechSDK;
  speech_config : SpeechConfig
}.

(** [try: body / except Exception as e: raise Exception(prefix + str(e))] *)
Definition rewrap {A : Type} (prefix : str) (o : outcome A) : outcome A :=
  match o with
  | Returned a => Returned a
  | Raised e => Raised (prefix ++ e)
  end.

(** Lines 72-80 and 104-112. *)
Definition recognition_outcome (result : recognition_result)
  : outcome (option str) :=
  match recognition_reason_of result with
  | RecognizedSpeech => Returned (Some (recognition_text result))
  | NoMatch => Returned None
  | RecognitionOther =>
      match recognition_cancellation result with
      | Some error_details =>
          Raised (lit "Error en reconocimiento de voz: "
                  ++ cancel_reason error_details ++ lit " - "
                  ++ cancel_error_details error_details)
      | None => Returned None
      end
  end.

(** Lines 38-83; the two branches on [audio_format] build the same stream. *)
Definition speech_to_text (self : AzureSpeechClient) (audio : bytes)
  : outcome (option str) :=
  rewrap (lit "Error al convertir voz a texto: ")
    (and_then (recognize_once_stream (speech_sdk self) (speech_config self) audio)
       recognition_outcome).

(** Lines 85-115. *)
Definition speech_to_text_from_file (self : AzureSpeechClient)
    (audio_file_path : str) : outcome (option str) :=
  rewrap (lit "Error al convertir voz a texto desde archivo: ")
    (and_then
       (recognize_once_file (speech_sdk self) (speech_config self)
          audio_file_path)
       recognition_outcome).





(** ** Further inputs and views *)

(** The search backend is unreachable. *)
Definition unreachable_search_pipeline : RAGPipeline :=
  {| search_client :=
       {| search_sdk :=
            {| sdk_search := fun _ _ => Raised (lit "Connection refused") |} |};
     openai_client := openai_client no_hits_pipeline;
     system_prompt := system_prompt no_hits_pipeline |}.

(** The stream breaks after its first chunk. *)
Definition broken_stream : chunk_stream :=
  {| stream_chunks := [chunk_of (lit "Paso")];
     stream_fault := Some (lit "Connection reset by peer") |}.

Definition broken_stream_pipeline : RAGPipeline :=
  pipeline_over [manual_hit (sample_text 5)] ok_backend
    (always (Returned broken_stream)).

(** The backend answers without any choice. *)
Definition no_choices_pipeline : RAGPipeline :=
  pipeline_over [manual_hit (sample_text 5)]
    (always (Returned {| choices := [] |}))
    (always (Returned {| stream_chunks := [ {| chunk_choices := [] |} ];
                         stream_fault := None |})).


(** What every call of one gateway invocation carries. *)
Definition call_of_invocation (self : AzureOpenAIClient) (streaming : bool)
    (system_prompt user_message : str) (context_chunks : list str)
    (temperature : float) (p : call_params) : Prop :=
  cp_model p = deployment_name self
  /\ cp_messages p = chat_messages system_prompt user_message context_chunks
  /\ cp_max_completion_tokens p = 800
  /\ cp_stream p = streaming
  /\ (cp_temperature p = None \/ cp_temperature p = Some temperature).

(** The header of the [i]-th fragment (counted from 0) in the prompt. *)
Definition fragment_block (i : nat) (chunk : str) : str :=
  lit "[Fragmento " ++ str_of_nat (i + 1) ++ lit "]" ++ NL ++ chunk.


(** An environment given as a list of bindings, first match wins. *)
Fixpoint lookup_env (bindings : list (str * str)) (name : str) : option str :=
  match bindings with
  | [] => None
  | (n, v) :: rest =>
      if startswith n name && startswith name n then Some v
      else lookup_env rest name
  end.

Definition full_env : list (str * str) :=
  [ (lit "AZURE_SEARCH_ENDPOINT", lit "https://search.example.net");
    (lit "AZURE_SEARCH_API_KEY", lit "search-key");
    (lit "AZURE_SEARCH_INDEX", lit "manuals");
    (lit "AZURE_OPENAI_ENDPOINT", lit "https://openai.example.net");
    (lit "AZURE_OPENAI_API_KEY", lit "openai-key");
    (lit "AZURE_OPENAI_DEPLOYMENT", lit "gpt-deployment");
    (lit "AZURE_SPEECH_API_KEY", lit "speech-key");
    (lit "AZURE_SPEECH_REGION", lit "westeurope") ].

(** The same environment with the search index set to the empty string. *)
Definition env_with_empty_index : list (str * str) :=
  (lit "AZURE_SEARCH_INDEX", []) :: full_env.

(** A parser that rejects every string, for environments without a port. *)
Definition no_int (s : str) : outcome Z :=
  Raised (lit "invalid literal for int() with base 10").

Section FurtherViews.

Context `{PyBuiltins}.

(** The answer to an exception caught by the orchestrator (lines 147-162
    and 254-259). *)
Definition caught_answer (error_message : str) : str :=
  if mentions_rate_limit error_message then rate_limit_answer error_message
  else error_answer error_message.

End FurtherViews.

(** * Properties *)

(** ** Lengths and slices *)

Lemma len_app {A : Type} (a b : list A) : len (a ++ b) = len a + len b.
Proof. unfold len. rewrite length_app. lia. Qed.

Lemma len_nonneg {A : Type} (s : list A) : 0 <= len s.
Proof. unfold len. lia. Qed.

Lemma len_slice_to {A : Type} (s : list A) (j : Z) :
  0 <= j -> len (slice_to s j) = Z.min j (len s).
Proof.
  intros Hj. unfold slice_to, clamp.
  destruct (Z.ltb_spec j 0); [lia|].
  unfold len. rewrite length_firstn. lia.
Qed.

Lemma slice_to_firstn {A : Type} (s : list A) (j : Z) :
  0 <= j <= len s -> slice_to s j = firstn (Z.to_nat j) s.
Proof.
  intros Hj. unfold slice_to, clamp.
  destruct (Z.ltb_spec j 0); [lia|].
  now rewrite Z.min_l by lia.
Qed.

Lemma slice_from_tail {A : Type} (s : list A) (n : Z) :
  0 < n <= len s -> slice_from s (- n) = skipn (Z.to_nat (len s - n)) s.
Proof.
  intros Hn. unfold slice_from, clamp.
  destruct (Z.ltb_spec (- n) 0); [|lia].
  rewrite Z.max_l by lia. reflexivity.
Qed.

Lemma len_skipn {A : Type} (s : list A) (k : nat) :
  len (skipn k s) = len s - Z.min (Z.of_nat k) (len s).
Proof. unfold len. rewrite length_skipn. lia. Qed.

Lemma total_len_app (a b : list str) :
  total_len (a ++ b) = total_len a + total_len b.
Proof.
  induction a as [|c a IH]; simpl; [reflexivity|]. rewrite IH. lia.
Qed.

Lemma truthy_app_r {A : Type} (a : list A) (x : A) : truthy (a ++ [x]) = true.
Proof. destruct a; reflexivity. Qed.

Lemma truthy_false {A : Type} (a : list A) : truthy a = false -> a = [].
Proof. destruct a; [reflexivity|discriminate]. Qed.

Lemma nonempty_of_len {A : Type} (s : list A) : 0 < len s -> s <> [].
Proof. intros Hpos Hnil. subst s. unfold len in Hpos. simpl in Hpos. lia. Qed.

Lemma len_TRUNCATED_MIDDLE : len TRUNCATED_MIDDLE = 24.
Proof. reflexivity. Qed.

Lemma len_TRUNCATED_END : len TRUNCATED_END = 20.
Proof. reflexivity. Qed.

(** ** The budgeting loop, for any pair of limits *)

Section BudgetLoop.

Variables (mc mt : Z).

(** Whatever the limits, the accepted chunks stay within the total budget
    unless the loop ends in the hard truncation of its first chunk. *)
Lemma budget_loop_total (Hmt : 0 <= mt) (docs : list doc) :
  forall acc t,
    t = total_len acc -> total_len acc <= mt ->
    match budget_loop mc mt docs acc t with
    | (r, HardTruncated) =>
        exists c, r = [slice_to c mt ++ TRUNCATED_END] /\ mt < len c
    | (r, _) => total_len r <= mt
    end.
Proof.
  induction docs as [|d rest IH]; intros acc t Ht Hacc; simpl.
  - exact Hacc.
  - destruct (truthy (get (doc_content d) [])); simpl.
    + destruct (Z.gtb_spec (t + len (truncate_middle mc (get (doc_content d) []))) mt)
        as [Hover|Hfit].
      * destruct (truthy acc) eqn:Eacc; [exact Hacc|].
        apply truthy_false in Eacc. subst acc. simpl in Ht. subst t.
        exists (truncate_middle mc (get (doc_content d) [])).
        split; [reflexivity|lia].
      * apply IH.
        -- rewrite total_len_app. simpl. lia.
        -- rewrite total_len_app. simpl. lia.
    + apply IH; assumption.
Qed.

(** The loop keeps what was accepted and appends the truncated contents of a
    prefix of the usable documents, in their order. *)
Lemma budget_loop_prefix (docs : list doc) :
  forall acc t,
    snd (budget_loop mc mt docs acc t) <> HardTruncated ->
    exists k,
      fst (budget_loop mc mt docs acc t)
      = acc ++ List.map (truncate_middle mc) (firstn k (usable_contents docs)).
Proof.
  induction docs as [|d rest IH]; intros acc t Hexit; simpl in *.
  - exists 0%nat. simpl. now rewrite app_nil_r.
  - unfold usable_contents in *. simpl.
    destruct (truthy (get (doc_content d) [])) eqn:Ed; simpl in *.
    + destruct (t + len (truncate_middle mc (get (doc_content d) [])) >? mt).
      * destruct (truthy acc); simpl in *.
        -- exists 0%nat. simpl. now rewrite app_nil_r.
        -- congruence.
      * destruct (IH _ _ Hexit) as [k Hk]. exists (S k). rewrite Hk.
        simpl. now rewrite <- app_assoc.
    + apply IH. exact Hexit.
Qed.

(** A usable document, or a chunk already accepted, leaves the result
    non-empty. *)
Lemma budget_loop_truthy (docs : list doc) :
  forall acc t,
    truthy acc = true \/ usable_contents docs <> [] ->
    truthy (fst (budget_loop mc mt docs acc t)) = true.
Proof.
  induction docs as [|d rest IH]; intros acc t Hsome; simpl.
  - destruct Hsome as [Hacc|Hne]; [exact Hacc|now elim Hne].
  - unfold usable_contents in *. simpl in Hsome.
    destruct (truthy (get (doc_content d) [])) eqn:Ed; simpl.
    + destruct (t + len (truncate_middle mc (get (doc_content d) [])) >? mt).
      * destruct (truthy acc) eqn:Eacc; simpl; [exact Eacc|].
        apply truthy_app_r.
      * apply IH. left. apply truthy_app_r.
    + apply IH. exact Hsome.
Qed.

(** When every truncated chunk fits the total budget on its own, the hard
    truncation is never taken. *)
Lemma budget_loop_no_hard_truncation
    (Hfit : forall c, len (truncate_middle mc c) <= mt) (docs : list doc) :
  forall acc t,
    (truthy acc = false -> t = 0) ->
    snd (budget_loop mc mt docs acc t) <> HardTruncated.
Proof.
  induction docs as [|d rest IH]; intros acc t Hinv; simpl.
  - discriminate.
  - destruct (truthy (get (doc_content d) [])); simpl.
    + destruct (Z.gtb_spec (t + len (truncate_middle mc (get (doc_content d) []))) mt)
        as [Hover|Hok].
      * destruct (truthy acc) eqn:Eacc; simpl; [discriminate|].
        specialize (Hinv eq_refl). specialize (Hfit (get (doc_content d) [])).
        lia.
      * apply IH. rewrite truthy_app_r. discriminate.
    + apply IH. exact Hinv.
Qed.

End BudgetLoop.

(** ** The limits of the pipeline *)

Lemma truncate_chunk_long (content : str) :
  MAX_CHARS_PER_CHUNK < len content ->
  truncate_chunk content
  = firstn (Z.to_nat 2000) content ++ TRUNCATED_MIDDLE
    ++ skipn (Z.to_nat (len content - 2000)) content.
Proof.
  unfold MAX_CHARS_PER_CHUNK. intros Hlong.
  unfold truncate_chunk, truncate_middle, MAX_CHARS_PER_CHUNK.
  destruct (Z.gtb_spec (len content) 4000); [|lia].
  change (4000 / 2) with 2000.
  rewrite slice_to_firstn by lia.
  rewrite slice_from_tail by lia. reflexivity.
Qed.

Lemma truncate_chunk_short (content : str) :
  len content <= MAX_CHARS_PER_CHUNK -> truncate_chunk content = content.
Proof.
  unfold truncate_chunk, truncate_middle, MAX_CHARS_PER_CHUNK. intros Hshort.
  destruct (Z.gtb_spec (len content) 4000); [lia|reflexivity].
Qed.

Lemma len_truncate_chunk_long (content : str) :
  MAX_CHARS_PER_CHUNK < len content ->
  len (truncate_chunk content) = MAX_CHARS_PER_CHUNK + len TRUNCATED_MIDDLE.
Proof.
  intros Hlong. rewrite truncate_chunk_long by exact Hlong.
  unfold MAX_CHARS_PER_CHUNK in *.
  rewrite !len_app, len_skipn, len_TRUNCATED_MIDDLE.
  unfold len at 1. rewrite length_firstn. unfold len in *. lia.
Qed.

Lemma len_truncate_chunk (content : str) :
  len (truncate_chunk content) <= MAX_CHARS_PER_CHUNK + len TRUNCATED_MIDDLE.
Proof.
  destruct (Z_lt_le_dec MAX_CHARS_PER_CHUNK (len content)) as [Hlong|Hshort].
  - rewrite len_truncate_chunk_long by exact Hlong. lia.
  - rewrite truncate_chunk_short by exact Hshort.
    rewrite len_TRUNCATED_MIDDLE. lia.
Qed.

Lemma run_budget_exit (docs : list doc) : snd (run_budget docs) <> HardTruncated.
Proof.
  apply budget_loop_no_hard_truncation; [|reflexivity].
  intros c. pose proof (len_truncate_chunk c) as Hc.
  rewrite len_TRUNCATED_MIDDLE in Hc.
  unfold truncate_chunk, MAX_CHARS_PER_CHUNK, MAX_TOTAL_CONTEXT in *. lia.
Qed.

Lemma build_context_chunks_prefix (docs : list doc) :
  exists k,
    build_context_chunks docs
    = List.map truncate_chunk (firstn k (usable_contents docs)).
Proof.
  destruct (budget_loop_prefix MAX_CHARS_PER_CHUNK MAX_TOTAL_CONTEXT docs [] 0
              (run_budget_exit docs)) as [k Hk].
  exists k. exact Hk.
Qed.

Lemma usable_contents_nonempty (docs : list doc) (d : doc) :
  In d docs -> get (doc_content d) [] <> [] -> usable_contents docs <> [].
Proof.
  intros Hin Hne Hnil.
  assert (Hmem : In (get (doc_content d) []) (usable_contents docs)).
  { unfold usable_contents. apply filter_In. split.
    - apply in_map_iff. now exists d.
    - destruct (get (doc_content d) []); [now elim Hne|reflexivity]. }
  rewrite Hnil in Hmem. exact Hmem.
Qed.

(** C1: the combined length of the fragments produced by the budgeting step
    of [rag_answer] and [rag_answer_stream] never exceeds MAX_TOTAL_CONTEXT,
    except when the loop ends with the single hard-truncated first fragment,
    whose length is exactly MAX_TOTAL_CONTEXT plus the length of the
    truncation marker. *)
Theorem C1_total_context_bound (docs : list doc) :
  total_len (build_context_chunks docs) <= MAX_TOTAL_CONTEXT
  \/ (exists f,
        build_context_chunks docs = [f]
        /\ len f = MAX_TOTAL_CONTEXT + len TRUNCATED_END).
Proof.
  assert (Hmt : 0 <= MAX_TOTAL_CONTEXT) by (unfold MAX_TOTAL_CONTEXT; lia).
  pose proof (budget_loop_total MAX_CHARS_PER_CHUNK MAX_TOTAL_CONTEXT Hmt docs
                [] 0 eq_refl Hmt) as Hloop.
  unfold build_context_chunks, run_budget.
  destruct (budget_loop MAX_CHARS_PER_CHUNK MAX_TOTAL_CONTEXT docs [] 0)
    as [r [| |]]; cbn [fst]; try (left; exact Hloop).
  destruct Hloop as [c [Hr Hc]]. right.
  exists (slice_to c MAX_TOTAL_CONTEXT ++ TRUNCATED_END). split; [exact Hr|].
  rewrite len_app, len_slice_to by exact Hmt. lia.
Qed.

(** C2: when at least one document of the input list has non-empty content,
    the budgeting step produces at least one fragment. *)
Theorem C2_usable_input_yields_fragment (docs : list doc) :
  (exists d, In d docs /\ get (doc_content d) [] <> []) ->
  build_context_chunks docs <> [].
Proof.
  intros [d [Hin Hne]] Hnil.
  pose proof (budget_loop_truthy MAX_CHARS_PER_CHUNK MAX_TOTAL_CONTEXT docs [] 0
                (or_intror (usable_contents_nonempty docs d Hin Hne))) as Ht.
  unfold build_context_chunks, run_budget in Hnil. rewrite Hnil in Ht.
  discriminate.
Qed.

Lemma C2_usable_input_yields_fragment_witness :
  (exists d, In d [manual_doc []; manual_doc (sample_text 5)]
             /\ get (doc_content d) [] <> [])
  /\ build_context_chunks [manual_doc []; manual_doc (sample_text 5)] <> [].
Proof.
  assert (Hex : exists d, In d [manual_doc []; manual_doc (sample_text 5)]
                          /\ get (doc_content d) [] <> []).
  { exists (manual_doc (sample_text 5)). split.
    - right. left. reflexivity.
    - discriminate. }
  split; [exact Hex|].
  exact (C2_usable_input_yields_fragment _ Hex).
Defined.

Lemma build_context_chunks_single (d : doc) (text : str) :
  doc_content d = Some text -> text <> [] ->
  build_context_chunks [d] = [truncate_chunk text].
Proof.
  intros Hd Hne.
  unfold build_context_chunks, run_budget. cbn [budget_loop]. rewrite Hd.
  cbn [get]. destruct text as [|c text']; [now elim Hne|].
  cbn [truthy negb].
  change (truncate_middle MAX_CHARS_PER_CHUNK (c :: text'))
    with (truncate_chunk (c :: text')).
  pose proof (len_truncate_chunk (c :: text')) as Hlen.
  rewrite len_TRUNCATED_MIDDLE in Hlen.
  destruct (Z.gtb_spec (0 + len (truncate_chunk (c :: text'))) MAX_TOTAL_CONTEXT)
    as [Hover|Hok].
  - unfold MAX_CHARS_PER_CHUNK, MAX_TOTAL_CONTEXT in *. lia.
  - reflexivity.
Qed.

(** C3: a document whose content is longer than MAX_CHARS_PER_CHUNK = 4000
    becomes a fragment made of its first 2000 characters, the truncation
    marker and its last 2000 characters, verbatim and in that order. *)
Theorem C3_long_content_keeps_head_and_tail (d : doc) (text : str) :
  doc_content d = Some text ->
  MAX_CHARS_PER_CHUNK < len text ->
  let head := firstn (Z.to_nat 2000) text in
  let tail := skipn (Z.to_nat (len text - 2000)) text in
  truncate_chunk text = head ++ TRUNCATED_MIDDLE ++ tail
  /\ len head = 2000 /\ len tail = 2000
  /\ len (truncate_chunk text) = 2000 + len TRUNCATED_MIDDLE + 2000
  /\ build_context_chunks [d] = [head ++ TRUNCATED_MIDDLE ++ tail].
Proof.
  intros Hd Hlong head tail.
  pose proof (truncate_chunk_long text Hlong) as Htr. fold head tail in Htr.
  pose proof (len_truncate_chunk_long text Hlong) as Hlen.
  unfold MAX_CHARS_PER_CHUNK in Hlong, Hlen.
  assert (Hhead : len head = 2000).
  { unfold head, len. rewrite length_firstn. unfold len in Hlong. lia. }
  assert (Htail : len tail = 2000).
  { unfold tail. rewrite len_skipn. pose proof (len_nonneg text). lia. }
  repeat split; try assumption; try lia.
  rewrite <- Htr. apply build_context_chunks_single; [exact Hd|].
  intros Hnil. subst text. unfold len in Hlong. simpl in Hlong. lia.
Qed.

Lemma C3_long_content_keeps_head_and_tail_witness :
  let text := sample_text (Z.to_nat 10000) in
  doc_content (manual_doc text) = Some text
  /\ MAX_CHARS_PER_CHUNK < len text
  /\ truncate_chunk text
     = firstn (Z.to_nat 2000) text ++ TRUNCATED_MIDDLE
       ++ skipn (Z.to_nat (len text - 2000)) text
  /\ len (truncate_chunk text) = 2000 + len TRUNCATED_MIDDLE + 2000.
Proof.
  intros text.
  assert (Hd : doc_content (manual_doc text) = Some text) by reflexivity.
  assert (Hlong : MAX_CHARS_PER_CHUNK < len text) by (vm_compute; reflexivity).
  destruct (C3_long_content_keeps_head_and_tail (manual_doc text) text Hd Hlong)
    as [Heq [_ [_ [Hlen _]]]].
  exact (conj Hd (conj Hlong (conj Heq Hlen))).
Defined.

Lemma build_context_chunks_in (docs : list doc) (f : str) :
  In f (build_context_chunks docs) ->
  exists text, In text (usable_contents docs) /\ f = truncate_chunk text.
Proof.
  destruct (build_context_chunks_prefix docs) as [k Hk]. rewrite Hk.
  intros Hin. apply in_map_iff in Hin. destruct Hin as [text [Hf Hin]].
  exists text. split; [|now symmetry].
  rewrite <- (firstn_skipn k (usable_contents docs)). apply in_or_app. now left.
Qed.

(** C10 (with the marker length as the code has it, 24): every accepted
    fragment has length at most MAX_CHARS_PER_CHUNK plus the length of the
    truncation marker, that is 4024, and the loop never leaves through the
    hard truncation of an oversized first fragment. *)
Theorem C10_fragment_bound_and_dead_branch (docs : list doc) (f : str) :
  In f (build_context_chunks docs) ->
  len f <= MAX_CHARS_PER_CHUNK + len TRUNCATED_MIDDLE
  /\ MAX_CHARS_PER_CHUNK + len TRUNCATED_MIDDLE = 4024
  /\ snd (run_budget docs) <> HardTruncated.
Proof.
  intros Hin. destruct (build_context_chunks_in docs f Hin) as [text [_ Hf]].
  subst f. repeat split.
  - apply len_truncate_chunk.
  - apply run_budget_exit.
Qed.

Lemma C10_fragment_bound_and_dead_branch_witness :
  let text := sample_text (Z.to_nat 4001) in
  In (truncate_chunk text) (build_context_chunks [manual_doc text])
  /\ len (truncate_chunk text) <= MAX_CHARS_PER_CHUNK + len TRUNCATED_MIDDLE
  /\ snd (run_budget [manual_doc text]) <> HardTruncated.
Proof.
  intros text.
  assert (Hin : In (truncate_chunk text) (build_context_chunks [manual_doc text])).
  { rewrite (build_context_chunks_single (manual_doc text) text eq_refl).
    - left. reflexivity.
    - apply nonempty_of_len. vm_compute. reflexivity. }
  destruct (C10_fragment_bound_and_dead_branch [manual_doc text] _ Hin)
    as [Hlen [_ Hexit]].
  exact (conj Hin (conj Hlen Hexit)).
Defined.

(** A content of 4001 characters yields a fragment of 4024 characters, above
    the bound of 4022 the claim names. *)
Lemma C10_counterexample :
  let text := sample_text (Z.to_nat 4001) in
  In (truncate_chunk text) (build_context_chunks [manual_doc text])
  /\ len (truncate_chunk text) = 4024
  /\ ~ len (truncate_chunk text) <= 4022.
Proof.
  intros text.
  assert (Hlen : len (truncate_chunk text) = 4024) by (vm_compute; reflexivity).
  split; [|split].
  - rewrite (build_context_chunks_single (manual_doc text) text eq_refl).
    + left. reflexivity.
    + apply nonempty_of_len. vm_compute. reflexivity.
  - exact Hlen.
  - rewrite Hlen. lia.
Qed.

(** ** The generation gateway *)

Section GatewayFacts.

Context `{PyBuiltins}.

(** The calls [generate_response] makes and what it returns, by the answer
    of the backend to the first call. *)
Lemma generate_response_calls (self : AzureOpenAIClient) (sp um : str)
    (cc : list str) (t : float) (log : call_log) :
  let p := build_call_params self false sp um cc t in
  generate_response self sp um cc t log =
  match create (client self) log p with
  | Returned r => (blocking_result (Returned r), log ++ [p])
  | Raised e =>
      if temperature_unsupported e then
        (blocking_result (create (client self) (log ++ [p]) (pop_temperature p)),
         (log ++ [p]) ++ [pop_temperature p])
      else (Raised (classified_error e), log ++ [p])
  end.
Proof.
  intros p.
  unfold generate_response, try_except, bind, create_with_retry, try_except,
    chat_completions_create, pure_call, raise, blocking_result, and_then.
  fold p. destruct (create (client self) log p) as [r|e].
  - destruct (response_text r); reflexivity.
  - destruct (temperature_unsupported e); [|reflexivity].
    destruct (create (client self) (log ++ [p]) (pop_temperature p)) as [r|e'];
      [|reflexivity].
    destruct (response_text r); reflexivity.
Qed.

Lemma relay_chunk_yields (chunk : completion_chunk) (log : call_log) :
  relay_chunk chunk log = ((chunk_text chunk, Returned tt), log).
Proof.
  unfold relay_chunk, chunk_text.
  destruct (chunk_choices chunk) as [|first rest]; [reflexivity|].
  destruct (delta first) as [d|]; [|reflexivity].
  destruct (delta_content d) as [text|]; [|reflexivity].
  destruct (truthy text); reflexivity.
Qed.

Lemma for_each_relay (chunks : list completion_chunk) (log : call_log) :
  for_each chunks relay_chunk log
  = ((flat_map chunk_text chunks, Returned tt), log).
Proof.
  induction chunks as [|c rest IH]; [reflexivity|].
  simpl. unfold gbind. rewrite relay_chunk_yields, IH. reflexivity.
Qed.

Lemma for_stream_relay (stream : chunk_stream) (log : call_log) :
  for_stream stream relay_chunk log
  = ((flat_map chunk_text (stream_chunks stream),
      match stream_fault stream with
      | Some e => Raised e
      | None => Returned tt
      end), log).
Proof.
  unfold for_stream, gbind. rewrite for_each_relay.
  destruct (stream_fault stream); unfold graise, gret; now rewrite app_nil_r.
Qed.

(** The same for [generate_response_stream], which never raises. *)
Lemma generate_response_stream_calls (self : AzureOpenAIClient) (sp um : str)
    (cc : list str) (t : float) (log : call_log) :
  let p := build_call_params self true sp um cc t in
  generate_response_stream self sp um cc t log =
  match create_stream (client self) log p with
  | Returned s => ((streaming_result (Returned s), Returned tt), log ++ [p])
  | Raised e =>
      if temperature_unsupported e then
        ((streaming_result
            (create_stream (client self) (log ++ [p]) (pop_temperature p)),
          Returned tt),
         (log ++ [p]) ++ [pop_temperature p])
      else (([stream_error_chunk e], Returned tt), log ++ [p])
  end.
Proof.
  intros p.
  unfold generate_response_stream, gtry, gbind, lift, create_with_retry,
    try_except, chat_completions_create_stream, raise, streaming_result, gyield.
  fold p. destruct (create_stream (client self) log p) as [s|e].
  - rewrite for_stream_relay. destruct (stream_fault s); [reflexivity|].
    now rewrite app_nil_r.
  - destruct (temperature_unsupported e); [|reflexivity].
    destruct (create_stream (client self) (log ++ [p]) (pop_temperature p))
      as [s|e']; [|reflexivity].
    rewrite for_stream_relay. destruct (stream_fault s); [reflexivity|].
    now rewrite app_nil_r.
Qed.

Lemma generate_response_stream_returns (self : AzureOpenAIClient)
    (sp um : str) (cc : list str) (t : float) (log : call_log) :
  snd (fst (generate_response_stream self sp um cc t log)) = Returned tt.
Proof.
  rewrite generate_response_stream_calls.
  destruct (create_stream _ _ _) as [s|e]; [reflexivity|].
  destruct (temperature_unsupported e); reflexivity.
Qed.

End GatewayFacts.

(** ** The orchestrator *)

Lemma sources_loop_map (docs : list doc) :
  forall acc, sources_loop docs acc = acc ++ List.map source_info_of docs.
Proof.
  induction docs as [|d rest IH]; intros acc; simpl.
  - now rewrite app_nil_r.
  - rewrite IH, <- app_assoc. reflexivity.
Qed.

Lemma build_sources_map (docs : list doc) :
  build_sources docs = List.map source_info_of docs.
Proof. unfold build_sources. now rewrite sources_loop_map. Qed.

Lemma no_results_test {A : Type} (l : list A) :
  negb (truthy l) || (len l =? 0) = negb (truthy l).
Proof.
  destruct l as [|x l]; [reflexivity|].
  unfold len. cbn [truthy negb orb List.length].
  apply Z.eqb_neq. lia.
Qed.

Section PipelineFacts.

Context `{PyBuiltins}.

Variables (self : RAGPipeline) (q : str) (k : Z) (t : float).

Lemma rag_answer_no_results (log : call_log) :
  search_documents_text_only (search_client self) q k = Returned [] ->
  rag_answer self q k t log
  = (Returned {| answer := NO_RESULTS_ANSWER; sources := [] |}, log).
Proof.
  intros Hsearch. unfold rag_answer, try_except, bind, pure_call.
  rewrite Hsearch. reflexivity.
Qed.

Lemma rag_answer_no_context (log : call_log) (docs : list doc) :
  search_documents_text_only (search_client self) q k = Returned docs ->
  docs <> [] -> build_context_chunks docs = [] ->
  rag_answer self q k t log
  = (Returned {| answer := no_context_answer docs; sources := [] |}, log).
Proof.
  intros Hsearch Hdocs Hchunks. unfold rag_answer, try_except, bind, pure_call.
  rewrite Hsearch, no_results_test, Hchunks.
  destruct docs; [now elim Hdocs|reflexivity].
Qed.

Lemma rag_answer_generating (log : call_log) (docs : list doc) :
  search_documents_text_only (search_client self) q k = Returned docs ->
  build_context_chunks docs <> [] ->
  rag_answer self q k t log
  = (Returned
       (generated_answer docs
          (fst (generate_response (openai_client self) (system_prompt self) q
                  (build_context_chunks docs) t log))),
     snd (generate_response (openai_client self) (system_prompt self) q
            (build_context_chunks docs) t log)).
Proof.
  intros Hsearch Hchunks. unfold rag_answer, try_except, bind, pure_call.
  rewrite Hsearch, no_results_test.
  destruct docs as [|d rest]; [now elim Hchunks|]. cbn [truthy negb].
  destruct (build_context_chunks (d :: rest)) as [|c cs] eqn:Ecs;
    [now elim Hchunks|]. cbn [truthy negb].
  destruct (generate_response _ _ _ _ _ log) as [[text|e] log']; cbn [fst snd].
  - reflexivity.
  - unfold generated_answer, ret. destruct (mentions_rate_limit e); reflexivity.
Qed.

Lemma rag_answer_stream_generating (log : call_log) (docs : list doc) :
  search_documents_text_only (search_client self) q k = Returned docs ->
  build_context_chunks docs <> [] ->
  rag_answer_stream self q k t log
  = ((fst (fst (generate_response_stream (openai_client self)
                  (system_prompt self) q (build_context_chunks docs) t log)),
      Returned (build_sources docs)),
     snd (generate_response_stream (openai_client self) (system_prompt self) q
            (build_context_chunks docs) t log)).
Proof.
  intros Hsearch Hchunks.
  pose proof (generate_response_stream_returns (openai_client self)
                (system_prompt self) q (build_context_chunks docs) t log) as Hret.
  unfold rag_answer_stream, gtry, gbind, lift, pure_call, relay.
  rewrite Hsearch, no_results_test.
  destruct docs as [|d rest]; [now elim Hchunks|]. cbn [truthy negb].
  destruct (build_context_chunks (d :: rest)) as [|c cs] eqn:Ecs;
    [now elim Hchunks|]. cbn [truthy negb].
  destruct (generate_response_stream _ _ _ _ _ log) as [[ys r] log'].
  cbn [fst snd] in *. subst r. unfold gret. now rewrite !app_nil_r.
Qed.

(** Whatever happens, the sources are those of every retrieved document, in
    rank order, or none at all. *)
Lemma rag_answer_sources (log : call_log) (docs : list doc) :
  search_documents_text_only (search_client self) q k = Returned docs ->
  exists r log',
    rag_answer self q k t log = (Returned r, log')
    /\ (sources r = List.map source_info_of docs \/ sources r = []).
Proof.
  intros Hsearch.
  destruct docs as [|d rest] eqn:Edocs.
  - eexists _, _. split; [apply rag_answer_no_results; exact Hsearch|].
    now right.
  - rewrite <- Edocs in *.
    destruct (build_context_chunks docs) as [|c cs] eqn:Ecs.
    + eexists _, _. split.
      * apply rag_answer_no_context; [exact Hsearch|congruence|exact Ecs].
      * now right.
    + eexists _, _. split.
      * apply rag_answer_generating; [exact Hsearch|]. rewrite Ecs. discriminate.
      * rewrite Ecs.
        destruct (fst (generate_response _ _ _ _ _ log)) as [text|e]; simpl.
        -- left. apply build_sources_map.
        -- now right.
Qed.

Lemma rag_answer_stream_sources (log : call_log) (docs : list doc) :
  search_documents_text_only (search_client self) q k = Returned docs ->
  exists ys srcs log',
    rag_answer_stream self q k t log = ((ys, Returned srcs), log')
    /\ (srcs = List.map source_info_of docs \/ srcs = []).
Proof.
  intros Hsearch.
  destruct (build_context_chunks docs) as [|c cs] eqn:Ecs.
  - unfold rag_answer_stream, gtry, gbind, lift, pure_call.
    rewrite Hsearch, no_results_test, Ecs.
    destruct docs; cbn [truthy negb]; unfold gyield, gret;
      eexists _, _, _; (split; [reflexivity|now right]).
  - eexists _, _, _. split.
    + apply rag_answer_stream_generating; [exact Hsearch|].
      rewrite Ecs. discriminate.
    + left. apply build_sources_map.
Qed.

End PipelineFacts.

(** ** The claims on the orchestrator and the gateway *)

(** C4: the fragments are the truncated contents of a prefix of the usable
    documents, in rank order, and the sources of a result follow the order of
    the search results whatever fragments were dropped: they are the entries
    of all the retrieved documents, in order, or (on the paths that attach no
    sources) none. *)
Theorem C4_rank_order_preserved `{PyBuiltins} (self : RAGPipeline) (q : str)
    (k : Z) (t : float) (log : call_log) (docs : list doc) :
  search_documents_text_only (search_client self) q k = Returned docs ->
  (exists n,
      build_context_chunks docs
      = List.map truncate_chunk (firstn n (usable_contents docs)))
  /\ (exists r log',
         rag_answer self q k t log = (Returned r, log')
         /\ (sources r = List.map source_info_of docs \/ sources r = []))
  /\ (exists ys srcs log',
         rag_answer_stream self q k t log = ((ys, Returned srcs), log')
         /\ (srcs = List.map source_info_of docs \/ srcs = [])).
Proof.
  intros Hsearch. split; [apply build_context_chunks_prefix|]. split.
  - apply rag_answer_sources. exact Hsearch.
  - apply rag_answer_stream_sources. exact Hsearch.
Qed.

(** C5 (on the path that generates an answer): when the search returned
    documents with usable context and the generation gateway returned a
    text, the sources of the result are built from the original search
    results, one entry per retrieved document in rank order, each with its
    source name, its score and its path when present. *)
Theorem C5_sources_from_all_results `{PyBuiltins} (self : RAGPipeline)
    (q : str) (k : Z) (t : float) (log : call_log) (docs : list doc)
    (text : str) :
  search_documents_text_only (search_client self) q k = Returned docs ->
  build_context_chunks docs <> [] ->
  fst (generate_response (openai_client self) (system_prompt self) q
         (build_context_chunks docs) t log) = Returned text ->
  fst (rag_answer self q k t log)
  = Returned {| answer := text; sources := List.map source_info_of docs |}
  /\ List.length (List.map source_info_of docs) = List.length docs.
Proof.
  intros Hsearch Hchunks Hgen.
  rewrite (rag_answer_generating self q k t log docs Hsearch Hchunks).
  cbn [fst]. rewrite Hgen. unfold generated_answer.
  rewrite build_sources_map. split; [reflexivity|apply length_map].
Qed.

(** C8: when the search returns no document, the result is the fixed
    no-results answer with no sources, and the log of generation-backend
    calls is left as it was: the backend is not called. *)
Theorem C8_no_results_short_circuit `{PyBuiltins} (self : RAGPipeline)
    (q : str) (k : Z) (t : float) (log : call_log) :
  search_documents_text_only (search_client self) q k = Returned [] ->
  rag_answer self q k t log
  = (Returned {| answer := NO_RESULTS_ANSWER; sources := [] |}, log).
Proof. apply rag_answer_no_results. Qed.


Lemma build_context_chunks_nil : build_context_chunks [] = [].
Proof. reflexivity. Qed.

Lemma is_rate_limit_429 `{PyBuiltins} (e : str) :
  contains (lit "429") e = true -> is_rate_limit e = true.
Proof. intros H429. unfold is_rate_limit. now rewrite H429. Qed.

Lemma mentions_rate_limit_error `{PyBuiltins} :
  mentions_rate_limit RATE_LIMIT_ERROR = true.
Proof.
  unfold mentions_rate_limit.
  replace (contains (lit "Límite de tasa alcanzado") RATE_LIMIT_ERROR)
    with true by (vm_compute; reflexivity).
  reflexivity.
Qed.

(** C6, as the code behaves: when every call to the generation backend fails
    with a message containing 429, the blocking mode answers with the
    rate-limit guidance and no sources; the streaming mode yields the
    guidance as its only chunk, but returns the sources of all the retrieved
    documents, which are not empty. *)
Theorem C6_rate_limit_by_mode `{PyBuiltins} (self : RAGPipeline) (q : str)
    (k : Z) (t : float) (log : call_log) (docs : list doc) (e : str) :
  search_documents_text_only (search_client self) q k = Returned docs ->
  build_context_chunks docs <> [] ->
  (forall l p, create (client (openai_client self)) l p = Raised e) ->
  (forall l p, create_stream (client (openai_client self)) l p = Raised e) ->
  contains (lit "429") e = true ->
  fst (rag_answer self q k t log)
  = Returned {| answer := rate_limit_answer RATE_LIMIT_ERROR; sources := [] |}
  /\ contains RATE_LIMIT_GUIDANCE (rate_limit_answer RATE_LIMIT_ERROR) = true
  /\ fst (rag_answer_stream self q k t log)
     = ([STREAM_RATE_LIMIT_CHUNK], Returned (List.map source_info_of docs))
  /\ contains RATE_LIMIT_GUIDANCE STREAM_RATE_LIMIT_CHUNK = true
  /\ List.map source_info_of docs <> [].
Proof.
  intros Hsearch Hchunks Hb Hs H429.
  pose proof (is_rate_limit_429 e H429) as Hrate.
  split; [|split; [|split; [|split]]].
  - rewrite (rag_answer_generating self q k t log docs Hsearch Hchunks).
    cbn [fst]. rewrite generate_response_calls, Hb.
    destruct (temperature_unsupported e); rewrite ?Hb; cbn [fst];
      unfold blocking_result, and_then, classified_error; rewrite Hrate;
      unfold generated_answer; now rewrite mentions_rate_limit_error.
  - vm_compute. reflexivity.
  - rewrite (rag_answer_stream_generating self q k t log docs Hsearch Hchunks).
    cbn [fst]. rewrite generate_response_stream_calls, Hs, build_sources_map.
    destruct (temperature_unsupported e); rewrite ?Hs; cbn [fst];
      unfold streaming_result, stream_error_chunk; now rewrite Hrate.
  - vm_compute. reflexivity.
  - destruct docs; [|discriminate]. now elim Hchunks.
Qed.

Lemma concat_stream_result (chunks : list completion_chunk) :
  List.concat (flat_map chunk_text chunks ++ []) = stream_text chunks.
Proof. now rewrite app_nil_r. Qed.

(** C9 (for a backend that answers without error): when the blocking
    response carries in its first choice the text that the chunks of the
    stream add up to, the blocking answer is the concatenation of the
    streamed chunks with leading and trailing white space removed; the two
    are identical when that text has no such white space. *)
Theorem C9_blocking_is_stripped_stream `{PyBuiltins} (self : RAGPipeline)
    (q : str) (k : Z) (t : float) (log_b log_s : call_log) (docs : list doc)
    (text : str) (rest : list choice) (chunks : list completion_chunk) :
  search_documents_text_only (search_client self) q k = Returned docs ->
  build_context_chunks docs <> [] ->
  (forall l p,
      create (client (openai_client self)) l p
      = Returned {| choices := {| message_content := Some text |} :: rest |}) ->
  (forall l p,
      create_stream (client (openai_client self)) l p
      = Returned {| stream_chunks := chunks; stream_fault := None |}) ->
  stream_text chunks = text ->
  let streamed := List.concat (fst (fst (rag_answer_stream self q k t log_s))) in
  streamed = text
  /\ fst (rag_answer self q k t log_b)
     = Returned {| answer := strip streamed;
                   sources := List.map source_info_of docs |}
  /\ (strip text = text ->
      fst (rag_answer self q k t log_b)
      = Returned {| answer := streamed;
                    sources := List.map source_info_of docs |}).
Proof.
  intros Hsearch Hchunks Hb Hs Htext streamed.
  assert (Hstreamed : streamed = text).
  { unfold streamed.
    rewrite (rag_answer_stream_generating self q k t log_s docs Hsearch Hchunks).
    cbn [fst]. rewrite generate_response_stream_calls, Hs. cbn [fst].
    unfold streaming_result. cbn [stream_chunks stream_fault].
    rewrite concat_stream_result. exact Htext. }
  assert (Hblocking : fst (rag_answer self q k t log_b)
                      = Returned {| answer := strip text;
                                    sources := List.map source_info_of docs |}).
  { rewrite (rag_answer_generating self q k t log_b docs Hsearch Hchunks).
    cbn [fst]. rewrite generate_response_calls, Hb. cbn [fst].
    unfold blocking_result, and_then, response_text.
    cbn [choices message_content]. unfold generated_answer.
    now rewrite build_sources_map. }
  rewrite Hstreamed. split; [reflexivity|]. split; [exact Hblocking|].
  intros Hclean. rewrite Hblocking, Hclean. reflexivity.
Qed.

(** ** The claims at concrete inputs *)

Lemma C4_rank_order_preserved_witness :
  let docs := List.map doc_of_hit four_hits in
  search_documents_text_only (search_client four_docs_pipeline) question 5
  = Returned docs
  /\ (exists n,
         build_context_chunks docs
         = List.map truncate_chunk (firstn n (usable_contents docs)))
  /\ (exists r log',
         @rag_answer ascii_builtins four_docs_pipeline question 5 1%float []
         = (Returned r, log')
         /\ (sources r = List.map source_info_of docs \/ sources r = []))
  /\ (exists ys srcs log',
         @rag_answer_stream ascii_builtins four_docs_pipeline question 5
           1%float []
         = ((ys, Returned srcs), log')
         /\ (srcs = List.map source_info_of docs \/ srcs = [])).
Proof.
  intros docs.
  assert (Hsearch : search_documents_text_only
                      (search_client four_docs_pipeline) question 5
                    = Returned docs) by reflexivity.
  split; [exact Hsearch|].
  exact (@C4_rank_order_preserved ascii_builtins four_docs_pipeline question 5
           1%float [] docs Hsearch).
Defined.

(** One retrieved document, with empty content: the document is found, yet
    the result carries no source. *)
Lemma C5_counterexample :
  search_documents_text_only (search_client empty_content_pipeline) question 5
  = Returned [manual_doc []]
  /\ fst (@rag_answer ascii_builtins empty_content_pipeline question 5
            1%float [])
     = Returned {| answer := @no_context_answer ascii_builtins [manual_doc []];
                   sources := [] |}
  /\ List.map source_info_of [manual_doc []]
     = [ {| info_source := lit "manual.pdf";
            info_score := 1.5%float;
            info_path := Some (lit "/manuals/manual.pdf") |} ]
  /\ [] <> List.map source_info_of [manual_doc []].
Proof.
  split; [reflexivity|]. split; [vm_compute; reflexivity|].
  split; [reflexivity|]. discriminate.
Qed.

Lemma C5_sources_from_all_results_witness :
  let docs := List.map doc_of_hit four_hits in
  search_documents_text_only (search_client four_docs_pipeline) question 5
  = Returned docs
  /\ List.length (build_context_chunks docs) = 3%nat
  /\ fst (@rag_answer ascii_builtins four_docs_pipeline question 5 1%float [])
     = Returned {| answer := lit "Paso 1.";
                   sources := List.map source_info_of docs |}
  /\ List.length (List.map source_info_of docs) = 4%nat.
Proof.
  intros docs.
  assert (Hsearch : search_documents_text_only
                      (search_client four_docs_pipeline) question 5
                    = Returned docs) by reflexivity.
  assert (Hthree : List.length (build_context_chunks docs) = 3%nat)
    by (vm_compute; reflexivity).
  assert (Hchunks : build_context_chunks docs <> []).
  { intros Hnil. rewrite Hnil in Hthree. discriminate Hthree. }
  assert (Hgen : fst (@generate_response ascii_builtins
                        (openai_client four_docs_pipeline)
                        (system_prompt four_docs_pipeline) question
                        (build_context_chunks docs) 1%float [])
                 = Returned (lit "Paso 1.")) by (vm_compute; reflexivity).
  destruct (@C5_sources_from_all_results ascii_builtins four_docs_pipeline
              question 5 1%float [] docs (lit "Paso 1.") Hsearch Hchunks Hgen)
    as [Hres Hlen].
  exact (conj Hsearch (conj Hthree (conj Hres Hlen))).
Defined.

Lemma C6_rate_limit_by_mode_witness :
  let docs := [manual_doc (sample_text 5)] in
  contains (lit "429") throttle_error = true
  /\ fst (@rag_answer ascii_builtins throttled_pipeline question 5 0.5%float [])
     = Returned {| answer := @rate_limit_answer RATE_LIMIT_ERROR;
                   sources := [] |}
  /\ fst (@rag_answer_stream ascii_builtins throttled_pipeline question 5
            0.5%float [])
     = ([STREAM_RATE_LIMIT_CHUNK], Returned (List.map source_info_of docs))
  /\ List.map source_info_of docs <> [].
Proof.
  intros docs.
  assert (H429 : contains (lit "429") throttle_error = true)
    by (vm_compute; reflexivity).
  assert (Hchunks : build_context_chunks docs <> [])
    by (vm_compute; discriminate).
  destruct (@C6_rate_limit_by_mode ascii_builtins throttled_pipeline question 5
              0.5%float [] docs throttle_error eq_refl Hchunks
              (fun _ _ => eq_refl) (fun _ _ => eq_refl) H429)
    as [Hb [_ [Hs [_ Hne]]]].
  exact (conj H429 (conj Hb (conj Hs Hne))).
Defined.

(** The scenario of a model that rejects a temperature of 0.5: two backend
    calls, the second without the temperature, and the retried text. *)
Example temperature_retry_scenario :
  let self :=
    {| deployment_name := lit "gpt-deployment";
       client :=
         {| create := default_temperature_only (completion_of (lit "Paso 1."));
            create_stream := default_temperature_only (stream_of [lit "Paso 1."]) |} |} in
  let run := @generate_response ascii_builtins self [] question [] 0.5%float [] in
  fst run = Returned (lit "Paso 1.")
  /\ List.map cp_temperature (snd run) = [Some 0.5%float; None].
Proof. split; vm_compute; reflexivity. Qed.

Lemma C8_no_results_short_circuit_witness :
  search_documents_text_only (search_client no_hits_pipeline) question 5
  = Returned []
  /\ @rag_answer ascii_builtins no_hits_pipeline question 5 0.5%float []
     = (Returned {| answer := NO_RESULTS_ANSWER; sources := [] |}, []).
Proof.
  split; [reflexivity|].
  exact (@C8_no_results_short_circuit ascii_builtins no_hits_pipeline question
           5 0.5%float [] eq_refl).
Defined.

(** The same backend text in both modes, with white space around it: the
    blocking answer has lost the white space, the streamed chunks have not. *)
Lemma C9_counterexample :
  stream_text (List.map chunk_of [lit "  Paso"; lit " 1. "]) = padded_reply
  /\ fst (@rag_answer ascii_builtins padded_pipeline question 5 1%float [])
     = Returned {| answer := lit "Paso 1.";
                   sources := [source_info_of (manual_doc (sample_text 5))] |}
  /\ List.concat
       (fst (fst (@rag_answer_stream ascii_builtins padded_pipeline question 5
                    1%float [])))
     = lit "  Paso 1. "
  /\ lit "Paso 1." <> lit "  Paso 1. ".
Proof.
  split; [vm_compute; reflexivity|]. split; [vm_compute; reflexivity|].
  split; [vm_compute; reflexivity|].
  intros Heq. vm_compute in Heq. discriminate Heq.
Qed.

Lemma C9_blocking_is_stripped_stream_witness :
  let docs := [manual_doc (sample_text 5)] in
  let streamed :=
    List.concat
      (fst (fst (@rag_answer_stream ascii_builtins padded_pipeline question 5
                   1%float []))) in
  stream_text (List.map chunk_of [lit "  Paso"; lit " 1. "]) = padded_reply
  /\ streamed = padded_reply
  /\ fst (@rag_answer ascii_builtins padded_pipeline question 5 1%float [])
     = Returned {| answer := strip streamed;
                   sources := List.map source_info_of docs |}.
Proof.
  intros docs streamed.
  assert (Htext : stream_text (List.map chunk_of [lit "  Paso"; lit " 1. "])
                  = padded_reply) by (vm_compute; reflexivity).
  assert (Hchunks : build_context_chunks docs <> [])
    by (vm_compute; discriminate).
  destruct (@C9_blocking_is_stripped_stream ascii_builtins padded_pipeline
              question 5 1%float [] [] docs padded_reply []
              (List.map chunk_of [lit "  Paso"; lit " 1. "])
              eq_refl Hchunks (fun _ _ => eq_refl) (fun _ _ => eq_refl) Htext)
    as [Hstreamed [Hb _]].
  exact (conj Htext (conj Hstreamed Hb)).
Defined.

(** With limits closer together than the pipeline's (a chunk cap of 100 and
    a total of 110), the exceptional case of C1 does occur: a first chunk of
    124 characters is cut to 110 plus the 20 of the end marker. *)
Example hard_truncation_under_tight_limits :
  let result := budget_loop 100 110 [manual_doc (sample_text 200)] [] 0 in
  snd result = HardTruncated
  /\ List.map (@len N) (fst result) = [110 + len TRUNCATED_END].
Proof. split; vm_compute; reflexivity. Qed.

(** * Further properties of the code *)

(** ** The budgeting loop is greedy *)

Lemma total_len_nonneg (chunks : list str) : 0 <= total_len chunks.
Proof.
  induction chunks as [|c cs IH]; simpl; [lia|].
  pose proof (len_nonneg c). lia.
Qed.

Lemma total_len_firstn_le (f : str -> str) (l : list str) (n : nat) :
  total_len (List.map f (firstn n l)) <= total_len (List.map f l).
Proof.
  revert n. induction l as [|c l IH]; intros [|n]; simpl; try lia.
  - pose proof (total_len_nonneg (List.map f l)). pose proof (len_nonneg (f c)).
    lia.
  - specialize (IH n). lia.
Qed.

Section GreedyLoop.

Variables (mc mt : Z).

(** Without hard truncation, the loop stops at the first usable document
    that would take the running total over the limit, and not before. *)
Lemma budget_loop_greedy (docs : list doc) :
  forall acc t,
    snd (budget_loop mc mt docs acc t) <> HardTruncated ->
    exists n,
      fst (budget_loop mc mt docs acc t)
      = acc ++ List.map (truncate_middle mc) (firstn n (usable_contents docs))
      /\ t + total_len (List.map (truncate_middle mc)
                          (firstn n (usable_contents docs))) <= Z.max t mt
      /\ ((n < List.length (usable_contents docs))%nat ->
          mt < t + total_len (List.map (truncate_middle mc)
                                (firstn (S n) (usable_contents docs)))).
Proof.
  induction docs as [|d rest IH]; intros acc t Hexit; simpl in *.
  - exists 0%nat. simpl. rewrite app_nil_r. repeat split; [lia|].
    intros Hlt. inversion Hlt.
  - unfold usable_contents in *. simpl.
    destruct (truthy (get (doc_content d) [])) eqn:Ed; simpl in *.
    + destruct (Z.gtb_spec (t + len (truncate_middle mc (get (doc_content d) []))) mt)
        as [Hover|Hfit].
      * destruct (truthy acc); simpl in *; [|congruence].
        exists 0%nat. simpl. rewrite app_nil_r. repeat split; lia.
      * destruct (IH _ _ Hexit) as [n [Hfst [Hle Hdrop]]].
        exists (S n). rewrite Hfst. simpl. rewrite <- app_assoc.
        split; [reflexivity|]. split; [lia|].
        intros Hlt. apply PeanoNat.lt_S_n in Hlt. specialize (Hdrop Hlt).
        simpl in Hdrop. lia.
    + apply IH. exact Hexit.
Qed.

End GreedyLoop.

Lemma total_len_truncated_bound (l : list str) :
  total_len (List.map truncate_chunk l) <= 4024 * Z.of_nat (List.length l).
Proof.
  induction l as [|c l IH]; [simpl; lia|].
  cbn [List.map total_len fold_right List.length].
  pose proof (len_truncate_chunk c) as Hc. rewrite len_TRUNCATED_MIDDLE in Hc.
  unfold MAX_CHARS_PER_CHUNK in Hc. unfold total_len in IH. lia.
Qed.

(** X1: the fragments are the longest prefix of the usable contents (each cut in
    its middle when too long) whose combined length stays within
    MAX_TOTAL_CONTEXT: the prefix fits, and one more fragment would not. *)
Theorem context_chunks_longest_fitting_prefix (docs : list doc) :
  exists n,
    build_context_chunks docs
    = List.map truncate_chunk (firstn n (usable_contents docs))
    /\ total_len (build_context_chunks docs) <= MAX_TOTAL_CONTEXT
    /\ ((n < List.length (usable_contents docs))%nat ->
        MAX_TOTAL_CONTEXT
        < total_len (List.map truncate_chunk
                       (firstn (S n) (usable_contents docs)))).
Proof.
  destruct (budget_loop_greedy MAX_CHARS_PER_CHUNK MAX_TOTAL_CONTEXT docs [] 0
              (run_budget_exit docs)) as [n [Hfst [Hle Hdrop]]].
  exists n. unfold build_context_chunks, run_budget. rewrite Hfst.
  cbn [app]. unfold truncate_chunk. unfold MAX_TOTAL_CONTEXT in *.
  repeat split; [lia|]. intros Hlt. specialize (Hdrop Hlt). lia.
Qed.

(** X2: when the usable contents, once truncated, fit the total budget together,
    no document is dropped: every usable content yields its fragment, in
    rank order. *)
Theorem context_chunks_keep_all_when_fitting (docs : list doc) :
  total_len (List.map truncate_chunk (usable_contents docs))
  <= MAX_TOTAL_CONTEXT ->
  build_context_chunks docs = List.map truncate_chunk (usable_contents docs).
Proof.
  intros Hfit.
  destruct (budget_loop_greedy MAX_CHARS_PER_CHUNK MAX_TOTAL_CONTEXT docs [] 0
              (run_budget_exit docs)) as [n [Hfst [_ Hdrop]]].
  unfold build_context_chunks, run_budget. rewrite Hfst. cbn [app].
  fold truncate_chunk in *.
  destruct (Nat.lt_ge_cases n (List.length (usable_contents docs))) as [Hlt|Hge].
  - specialize (Hdrop Hlt).
    pose proof (total_len_firstn_le truncate_chunk (usable_contents docs) (S n)).
    lia.
  - now rewrite firstn_all2 by exact Hge.
Qed.

Lemma context_chunks_keep_all_when_fitting_witness :
  let docs := [manual_doc (sample_text 7); manual_doc [];
               manual_doc (sample_text 3)] in
  total_len (List.map truncate_chunk (usable_contents docs))
  <= MAX_TOTAL_CONTEXT
  /\ build_context_chunks docs = [sample_text 7; sample_text 3].
Proof.
  intros docs.
  assert (Hfit : total_len (List.map truncate_chunk (usable_contents docs))
                 <= MAX_TOTAL_CONTEXT) by (vm_compute; discriminate).
  split; [exact Hfit|].
  rewrite (context_chunks_keep_all_when_fitting docs Hfit). reflexivity.
Defined.

(** X3: the first two usable documents are always in the context: two fragments
    of at most 4024 characters fit in 12000. *)
Theorem context_chunks_keep_first_two (docs : list doc) :
  (Nat.min 2 (List.length (usable_contents docs))
   <= List.length (build_context_chunks docs))%nat.
Proof.
  destruct (budget_loop_greedy MAX_CHARS_PER_CHUNK MAX_TOTAL_CONTEXT docs [] 0
              (run_budget_exit docs)) as [n [Hfst [_ Hdrop]]].
  unfold build_context_chunks, run_budget. rewrite Hfst. cbn [app].
  fold truncate_chunk in *. rewrite length_map, length_firstn.
  destruct (Nat.lt_ge_cases n (List.length (usable_contents docs))) as [Hlt|Hge];
    [|lia].
  specialize (Hdrop Hlt).
  pose proof (total_len_truncated_bound (firstn (S n) (usable_contents docs)))
    as Hbound.
  rewrite length_firstn in Hbound. unfold MAX_TOTAL_CONTEXT in Hdrop. lia.
Qed.

(** Two is all that is guaranteed: of three documents of 4001 characters,
    each cut to 4024, the third does not fit. *)
Example third_long_document_is_dropped :
  let d := manual_doc (sample_text (Z.to_nat 4001)) in
  List.map (@len N) (build_context_chunks [d; d; d]) = [4024; 4024]
  /\ snd (run_budget [d; d; d]) = BudgetBreak.
Proof. split; vm_compute; reflexivity. Qed.

(** X4: no fragment is empty: documents without content contribute nothing, and
    truncation never empties a content. *)
Theorem context_chunks_never_empty (docs : list doc) (f : str) :
  In f (build_context_chunks docs) -> f <> [].
Proof.
  intros Hin. destruct (build_context_chunks_in docs f Hin) as [text [Husable Hf]].
  unfold usable_contents in Husable. apply filter_In in Husable.
  destruct Husable as [_ Htruthy]. subst f.
  destruct (Z_lt_le_dec MAX_CHARS_PER_CHUNK (len text)) as [Hlong|Hshort].
  - apply nonempty_of_len. rewrite len_truncate_chunk_long by exact Hlong.
    rewrite len_TRUNCATED_MIDDLE. unfold MAX_CHARS_PER_CHUNK. lia.
  - rewrite truncate_chunk_short by exact Hshort.
    destruct text; [discriminate|discriminate].
Qed.

Lemma context_chunks_never_empty_witness :
  In (sample_text 3)
     (build_context_chunks [manual_doc []; manual_doc (sample_text 3)])
  /\ sample_text 3 <> [].
Proof.
  assert (Hin : In (sample_text 3)
                  (build_context_chunks [manual_doc []; manual_doc (sample_text 3)]))
    by (left; reflexivity).
  split; [exact Hin|].
  exact (context_chunks_never_empty _ _ Hin).
Defined.

(** ** [strip] and the blocking answer *)

Lemma lstrip_idem (s : str) : lstrip (lstrip s) = lstrip s.
Proof.
  induction s as [|c s IH]; [reflexivity|]. simpl.
  destruct (isspace c) eqn:Ec; [exact IH|]. simpl. now rewrite Ec.
Qed.

Lemma lstrip_app_nonspace (l : str) (c : N) :
  isspace c = false -> lstrip (l ++ [c]) = lstrip l ++ [c].
Proof.
  intros Hc. induction l as [|x l IH]; simpl.
  - now rewrite Hc.
  - destruct (isspace x); [exact IH|reflexivity].
Qed.

Lemma rstrip_cons_nonspace (c : N) (s : str) :
  isspace c = false -> rstrip (c :: s) = c :: rstrip s.
Proof.
  intros Hc. unfold rstrip. simpl rev at 2.
  rewrite lstrip_app_nonspace by exact Hc.
  rewrite rev_app_distr. reflexivity.
Qed.

Lemma rstrip_idem (s : str) : rstrip (rstrip s) = rstrip s.
Proof. unfold rstrip. now rewrite rev_involutive, lstrip_idem. Qed.

Lemma lstrip_rstrip_lstrip (s : str) :
  lstrip (rstrip (lstrip s)) = rstrip (lstrip s).
Proof.
  induction s as [|c s IH]; [reflexivity|]. simpl.
  destruct (isspace c) eqn:Ec; [exact IH|].
  rewrite rstrip_cons_nonspace by exact Ec. simpl. now rewrite Ec.
Qed.

Lemma lstrip_strip (s : str) : lstrip (strip s) = strip s.
Proof. apply lstrip_rstrip_lstrip. Qed.

Lemma rstrip_strip (s : str) : rstrip (strip s) = strip s.
Proof. apply rstrip_idem. Qed.

Lemma strip_idem (s : str) : strip (strip s) = strip s.
Proof. unfold strip at 1. now rewrite lstrip_strip, rstrip_strip. Qed.

Lemma lstrip_head (s : str) (c : N) (r : str) :
  lstrip s = c :: r -> isspace c = false.
Proof.
  induction s as [|x s IH]; simpl; [discriminate|].
  destruct (isspace x) eqn:Ex; [exact IH|]. intros Heq. congruence.
Qed.

Section BlockingText.

Context `{PyBuiltins}.

Lemma blocking_result_stripped (o : outcome chat_completion) (a : str) :
  blocking_result o = Returned a -> strip a = a.
Proof.
  unfold blocking_result, and_then, response_text.
  destruct o as [r|e]; [|discriminate].
  destruct (choices r) as [|first rest].
  - intros Heq. inversion Heq. vm_compute. reflexivity.
  - destruct (message_content first) as [text|]; [|discriminate].
    intros Heq. inversion Heq. apply strip_idem.
Qed.

(** X5: whatever text [generate_response] returns has no white space at either
    end: stripping it again changes nothing, and its first and last
    characters are not white space. *)
Theorem generate_response_text_is_stripped (self : AzureOpenAIClient)
    (sp um : str) (cc : list str) (t : float) (log : call_log) (a : str) :
  fst (generate_response self sp um cc t log) = Returned a ->
  strip a = a
  /\ (forall c r, a = c :: r -> isspace c = false)
  /\ (forall r c, a = r ++ [c] -> isspace c = false).
Proof.
  intros Hret.
  assert (Hstrip : strip a = a).
  { rewrite generate_response_calls in Hret.
    destruct (create _ _ _) as [r|e].
    - exact (blocking_result_stripped _ _ Hret).
    - destruct (temperature_unsupported e); [|discriminate].
      exact (blocking_result_stripped _ _ Hret). }
  split; [exact Hstrip|]. split.
  - intros c r Ha. apply (lstrip_head a c r).
    rewrite <- Hstrip at 1. rewrite lstrip_strip, Hstrip. exact Ha.
  - intros r c Ha.
    assert (Hr : rstrip a = a) by (rewrite <- Hstrip at 1; rewrite rstrip_strip; exact Hstrip).
    unfold rstrip in Hr. rewrite Ha, rev_app_distr in Hr. simpl in Hr.
    destruct (isspace c) eqn:Ec; [|reflexivity].
    apply (f_equal (@List.length N)) in Hr.
    rewrite length_rev, length_app in Hr. simpl in Hr.
    assert (Hle : forall s, (List.length (lstrip s) <= List.length s)%nat).
    { induction s as [|x s IH]; simpl; [lia|].
      destruct (isspace x); simpl; lia. }
    specialize (Hle (rev r)). rewrite length_rev in Hle. lia.
Qed.

End BlockingText.

Lemma generate_response_text_is_stripped_witness :
  let self := openai_client padded_pipeline in
  fst (@generate_response ascii_builtins self [] question [] 1%float [])
  = Returned (lit "Paso 1.")
  /\ strip (lit "Paso 1.") = lit "Paso 1.".
Proof.
  intros self.
  assert (Hret : fst (@generate_response ascii_builtins self [] question []
                        1%float []) = Returned (lit "Paso 1."))
    by (vm_compute; reflexivity).
  destruct (@generate_response_text_is_stripped ascii_builtins self [] question
              [] 1%float [] (lit "Paso 1.") Hret) as [Hstrip _].
  exact (conj Hret Hstrip).
Defined.

(** ** What the prompt contains *)

Lemma startswith_app (p s : str) : startswith p (p ++ s) = true.
Proof.
  induction p as [|c p IH]; [reflexivity|]. simpl. now rewrite N.eqb_refl.
Qed.

Lemma contains_app_r (p a s : str) :
  contains p s = true -> contains p (a ++ s) = true.
Proof.
  intros Hs. induction a as [|c a IH]; [exact Hs|].
  simpl. rewrite IH. apply orb_true_r.
Qed.

Lemma contains_prefix (p s : str) :
  startswith p s = true -> contains p s = true.
Proof. intros Hp. destruct s; simpl; now rewrite Hp. Qed.

Lemma contains_head (p b : str) : contains p (p ++ b) = true.
Proof. apply contains_prefix, startswith_app. Qed.

Lemma contains_infix (p a b : str) : contains p (a ++ p ++ b) = true.
Proof. apply contains_app_r, contains_head. Qed.

Lemma join_infix (sep part : str) (parts : list str) :
  In part parts -> exists a b, join sep parts = a ++ part ++ b.
Proof.
  induction parts as [|p rest IH]; intros Hin; [contradiction|].
  destruct Hin as [Heq|Hin].
  - subst p. destruct rest as [|p' rest'].
    + exists [], []. simpl. now rewrite app_nil_r.
    + exists [], (sep ++ join sep (p' :: rest')). reflexivity.
  - destruct (IH Hin) as [a [b Hab]].
    destruct rest as [|p' rest']; [contradiction|].
    exists (p ++ sep ++ a), b.
    change (join sep (p :: p' :: rest')) with (p ++ sep ++ join sep (p' :: rest')).
    rewrite Hab. now rewrite <- !app_assoc.
Qed.

Lemma in_combine_seq (l : list str) :
  forall start i c,
    nth_error l i = Some c ->
    In ((start + i)%nat, c) (combine (seq start (List.length l)) l).
Proof.
  induction l as [|x l IH]; intros start [|i] c Hnth; simpl in *;
    try discriminate.
  - inversion Hnth. left. f_equal. lia.
  - right. replace (start + S i)%nat with (S start + i)%nat by lia.
    now apply IH.
Qed.

Lemma context_text_infix (chunks : list str) (i : nat) (c : str) :
  nth_error chunks i = Some c ->
  exists a b, context_text chunks = a ++ fragment_block i c ++ b.
Proof.
  intros Hnth. unfold context_text. apply join_infix.
  apply in_map_iff. exists (i, c). split; [reflexivity|].
  exact (in_combine_seq chunks 0 i c Hnth).
Qed.

(** X6: every fragment handed to the gateway appears verbatim in the user
    prompt, under its header numbered from 1, and so does the question. *)
Theorem prompt_carries_fragments_and_question (chunks : list str)
    (user_message : str) (i : nat) (c : str) :
  nth_error chunks i = Some c ->
  contains (fragment_block i c) (context_text chunks) = true
  /\ contains (fragment_block i c)
       (user_prompt_with_context chunks user_message) = true
  /\ contains user_message (user_prompt_with_context chunks user_message)
     = true.
Proof.
  intros Hnth. destruct (context_text_infix chunks i c Hnth) as [a [b Hab]].
  split; [rewrite Hab; apply contains_infix|]. split.
  - unfold user_prompt_with_context. rewrite Hab.
    do 3 apply contains_app_r. rewrite <- !app_assoc.
    apply contains_app_r. apply contains_head.
  - unfold user_prompt_with_context.
    do 10 apply contains_app_r. apply contains_head.
Qed.

Lemma prompt_carries_fragments_and_question_witness :
  nth_error [lit "uno"; lit "dos"] 1 = Some (lit "dos")
  /\ contains (fragment_block 1 (lit "dos"))
       (user_prompt_with_context [lit "uno"; lit "dos"] question) = true
  /\ contains question
       (user_prompt_with_context [lit "uno"; lit "dos"] question) = true.
Proof.
  assert (Hnth : nth_error [lit "uno"; lit "dos"] 1 = Some (lit "dos"))
    by reflexivity.
  destruct (prompt_carries_fragments_and_question [lit "uno"; lit "dos"]
              question 1 (lit "dos") Hnth) as [_ [Hfragment Hquestion]].
  exact (conj Hnth (conj Hfragment Hquestion)).
Defined.

Example second_fragment_header :
  fragment_block 1 (lit "dos") = lit "[Fragmento 2]" ++ NL ++ lit "dos".
Proof. vm_compute. reflexivity. Qed.

(** ** Paths that do not reach the generation backend *)

Lemma usable_contents_all_empty (docs : list doc) :
  Forall (fun d => get (doc_content d) [] = []) docs ->
  usable_contents docs = [].
Proof.
  unfold usable_contents. induction 1 as [|d rest Hd _ IH]; [reflexivity|].
  simpl. now rewrite Hd.
Qed.

Lemma build_context_chunks_all_empty (docs : list doc) :
  Forall (fun d => get (doc_content d) [] = []) docs ->
  build_context_chunks docs = [].
Proof.
  intros Hall. destruct (build_context_chunks_prefix docs) as [n Hn].
  rewrite Hn, (usable_contents_all_empty docs Hall). now destruct n.
Qed.

Section ShortCircuits.

Context `{PyBuiltins}.

Variables (self : RAGPipeline) (q : str) (k : Z) (t : float).

Lemma rag_answer_search_failure (log : call_log) (m : str) :
  search_documents_text_only (search_client self) q k = Raised m ->
  rag_answer self q k t log
  = (Returned {| answer := caught_answer m; sources := [] |}, log).
Proof.
  intros Hsearch. unfold rag_answer, try_except, bind, pure_call, caught_answer.
  rewrite Hsearch. destruct (mentions_rate_limit m); reflexivity.
Qed.

Lemma rag_answer_stream_search_failure (log : call_log) (m : str) :
  search_documents_text_only (search_client self) q k = Raised m ->
  rag_answer_stream self q k t log = (([caught_answer m], Returned []), log).
Proof.
  intros Hsearch.
  unfold rag_answer_stream, gtry, gbind, lift, pure_call, caught_answer.
  rewrite Hsearch. destruct (mentions_rate_limit m); reflexivity.
Qed.

Lemma rag_answer_stream_no_results (log : call_log) :
  search_documents_text_only (search_client self) q k = Returned [] ->
  rag_answer_stream self q k t log = (([NO_RESULTS_ANSWER], Returned []), log).
Proof.
  intros Hsearch. unfold rag_answer_stream, gtry, gbind, lift, pure_call.
  rewrite Hsearch. reflexivity.
Qed.

Lemma rag_answer_stream_no_context (log : call_log) (docs : list doc) :
  search_documents_text_only (search_client self) q k = Returned docs ->
  docs <> [] -> build_context_chunks docs = [] ->
  rag_answer_stream self q k t log
  = (([no_context_answer docs], Returned []), log).
Proof.
  intros Hsearch Hdocs Hchunks.
  unfold rag_answer_stream, gtry, gbind, lift, pure_call.
  rewrite Hsearch, no_results_test, Hchunks.
  destruct docs; [now elim Hdocs|reflexivity].
Qed.

End ShortCircuits.

(** X7: when the search backend fails, both modes answer with the same
    diagnostic built from the wrapped search error, attach no sources and
    leave the generation backend alone. *)
Theorem search_failure_is_answered `{PyBuiltins} (self : RAGPipeline)
    (q : str) (k : Z) (t : float) (log : call_log) (e : str) :
  sdk_search (search_sdk (search_client self)) q k = Raised e ->
  let m := lit "Error al buscar en Azure AI Search: " ++ e in
  rag_answer self q k t log
  = (Returned {| answer := caught_answer m; sources := [] |}, log)
  /\ rag_answer_stream self q k t log
     = (([caught_answer m], Returned []), log)
  /\ contains e (caught_answer m) = true.
Proof.
  intros Hsdk m.
  assert (Hsearch : search_documents_text_only (search_client self) q k
                    = Raised m).
  { unfold search_documents_text_only, search_documents. now rewrite Hsdk. }
  split; [exact (rag_answer_search_failure self q k t log m Hsearch)|].
  split; [exact (rag_answer_stream_search_failure self q k t log m Hsearch)|].
  unfold caught_answer, rate_limit_answer, error_answer, m.
  destruct (mentions_rate_limit _).
  - do 3 apply contains_app_r. rewrite <- app_assoc.
    apply contains_app_r, contains_head.
  - do 3 apply contains_app_r. rewrite <- app_assoc.
    apply contains_app_r, contains_head.
Qed.

Lemma search_failure_is_answered_witness :
  sdk_search (search_sdk (search_client unreachable_search_pipeline)) question 5
  = Raised (lit "Connection refused")
  /\ @rag_answer ascii_builtins unreachable_search_pipeline question 5
       0.5%float []
     = (Returned
          {| answer :=
               @caught_answer ascii_builtins
                 (lit "Error al buscar en Azure AI Search: "
                  ++ lit "Connection refused");
             sources := [] |}, []).
Proof.
  split; [reflexivity|].
  exact (proj1 (@search_failure_is_answered ascii_builtins
                  unreachable_search_pipeline question 5 0.5%float []
                  (lit "Connection refused") eq_refl)).
Defined.

(** X8: when the search returns documents but none has content, both modes
    answer with the same diagnostic, attach no sources and do not call the
    generation backend. *)
Theorem no_usable_context_is_answered `{PyBuiltins} (self : RAGPipeline)
    (q : str) (k : Z) (t : float) (log : call_log) (docs : list doc) :
  search_documents_text_only (search_client self) q k = Returned docs ->
  docs <> [] ->
  Forall (fun d => get (doc_content d) [] = []) docs ->
  rag_answer self q k t log
  = (Returned {| answer := no_context_answer docs; sources := [] |}, log)
  /\ rag_answer_stream self q k t log
     = (([no_context_answer docs], Returned []), log).
Proof.
  intros Hsearch Hdocs Hall.
  pose proof (build_context_chunks_all_empty docs Hall) as Hchunks. split.
  - exact (rag_answer_no_context self q k t log docs Hsearch Hdocs Hchunks).
  - exact (rag_answer_stream_no_context self q k t log docs Hsearch Hdocs Hchunks).
Qed.

Lemma no_usable_context_is_answered_witness :
  let docs := [manual_doc []] in
  search_documents_text_only (search_client empty_content_pipeline) question 5
  = Returned docs
  /\ Forall (fun d => get (doc_content d) [] = []) docs
  /\ @rag_answer_stream ascii_builtins empty_content_pipeline question 5
       1%float []
     = (([@no_context_answer ascii_builtins docs], Returned []), []).
Proof.
  intros docs.
  assert (Hall : Forall (fun d => get (doc_content d) [] = []) docs)
    by (repeat constructor).
  assert (Hne : docs <> []) by discriminate.
  split; [reflexivity|]. split; [exact Hall|].
  exact (proj2 (@no_usable_context_is_answered ascii_builtins
                  empty_content_pipeline question 5 1%float [] docs eq_refl
                  Hne Hall)).
Defined.

(** ** The calls that reach the generation backend *)

Section CallLog.

Context `{PyBuiltins}.

Lemma build_call_params_shape (self : AzureOpenAIClient) (streaming : bool)
    (sp um : str) (cc : list str) (t : float) :
  call_of_invocation self streaming sp um cc t
    (build_call_params self streaming sp um cc t).
Proof.
  unfold call_of_invocation, build_call_params.
  destruct (t =? 1)%float; cbn; repeat split; auto.
Qed.

Lemma pop_temperature_shape (self : AzureOpenAIClient) (streaming : bool)
    (sp um : str) (cc : list str) (t : float) (p : call_params) :
  call_of_invocation self streaming sp um cc t p ->
  call_of_invocation self streaming sp um cc t (pop_temperature p).
Proof.
  unfold call_of_invocation. cbn. intros [Hm [Hmsg [Hmax [Hs _]]]].
  repeat split; auto.
Qed.

(** One or two calls, appended to the log, all of them of this invocation. *)
Lemma generate_response_log (self : AzureOpenAIClient) (sp um : str)
    (cc : list str) (t : float) (log : call_log) :
  exists calls,
    snd (generate_response self sp um cc t log) = log ++ calls
    /\ (1 <= List.length calls <= 2)%nat
    /\ Forall (call_of_invocation self false sp um cc t) calls.
Proof.
  rewrite generate_response_calls.
  pose proof (build_call_params_shape self false sp um cc t) as Hp.
  set (p := build_call_params self false sp um cc t) in *.
  destruct (create (client self) log p) as [r|e].
  - exists [p]. cbn [snd List.length].
    split; [reflexivity|]. split; [lia|]. now constructor.
  - destruct (temperature_unsupported e).
    + exists [p; pop_temperature p]. cbn [snd List.length].
      split; [now rewrite <- app_assoc|]. split; [lia|].
      constructor; [exact Hp|]. constructor; [|constructor].
      now apply pop_temperature_shape.
    + exists [p]. cbn [snd List.length].
      split; [reflexivity|]. split; [lia|]. now constructor.
Qed.

Lemma generate_response_stream_log (self : AzureOpenAIClient) (sp um : str)
    (cc : list str) (t : float) (log : call_log) :
  exists calls,
    snd (generate_response_stream self sp um cc t log) = log ++ calls
    /\ (1 <= List.length calls <= 2)%nat
    /\ Forall (call_of_invocation self true sp um cc t) calls.
Proof.
  rewrite generate_response_stream_calls.
  pose proof (build_call_params_shape self true sp um cc t) as Hp.
  set (p := build_call_params self true sp um cc t) in *.
  destruct (create_stream (client self) log p) as [s|e].
  - exists [p]. cbn [snd List.length].
    split; [reflexivity|]. split; [lia|]. now constructor.
  - destruct (temperature_unsupported e).
    + exists [p; pop_temperature p]. cbn [snd List.length].
      split; [now rewrite <- app_assoc|]. split; [lia|].
      constructor; [exact Hp|]. constructor; [|constructor].
      now apply pop_temperature_shape.
    + exists [p]. cbn [snd List.length].
      split; [reflexivity|]. split; [lia|]. now constructor.
Qed.

Variables (self : RAGPipeline) (q : str) (k : Z) (t : float).

(** The log after an invocation, by the outcome of the search. *)
Lemma rag_answer_log (log : call_log) :
  exists calls,
    snd (rag_answer self q k t log) = log ++ calls
    /\ (List.length calls <= 2)%nat
    /\ forall docs,
         search_documents_text_only (search_client self) q k = Returned docs ->
         Forall (call_of_invocation (openai_client self) false
                   (system_prompt self) q (build_context_chunks docs) t) calls.
Proof.
  destruct (search_documents_text_only (search_client self) q k)
    as [docs|m] eqn:Hsearch.
  - destruct (build_context_chunks docs) as [|c cs] eqn:Ecs.
    + exists []. rewrite app_nil_r. split; [|split; [simpl; lia|constructor]].
      destruct docs as [|d rest].
      * now rewrite (rag_answer_no_results self q k t log Hsearch).
      * rewrite (rag_answer_no_context self q k t log (d :: rest) Hsearch);
          [reflexivity|discriminate|exact Ecs].
    + assert (Hne : build_context_chunks docs <> []) by (rewrite Ecs; discriminate).
      rewrite (rag_answer_generating self q k t log docs Hsearch Hne).
      cbn [snd].
      destruct (generate_response_log (openai_client self) (system_prompt self)
                  q (build_context_chunks docs) t log) as [calls [Hlog [Hlen Hall]]].
      exists calls. split; [exact Hlog|]. split; [lia|].
      intros docs' Hdocs'. inversion Hdocs'. subst docs'. exact Hall.
  - exists []. rewrite app_nil_r.
    rewrite (rag_answer_search_failure self q k t log m Hsearch).
    split; [reflexivity|]. split; [simpl; lia|]. intros docs Hdocs. discriminate.
Qed.

Lemma rag_answer_stream_log (log : call_log) :
  exists calls,
    snd (rag_answer_stream self q k t log) = log ++ calls
    /\ (List.length calls <= 2)%nat
    /\ forall docs,
         search_documents_text_only (search_client self) q k = Returned docs ->
         Forall (call_of_invocation (openai_client self) true
                   (system_prompt self) q (build_context_chunks docs) t) calls.
Proof.
  destruct (search_documents_text_only (search_client self) q k)
    as [docs|m] eqn:Hsearch.
  - destruct (build_context_chunks docs) as [|c cs] eqn:Ecs.
    + exists []. rewrite app_nil_r. split; [|split; [simpl; lia|constructor]].
      destruct docs as [|d rest].
      * now rewrite (rag_answer_stream_no_results self q k t log Hsearch).
      * rewrite (rag_answer_stream_no_context self q k t log (d :: rest) Hsearch);
          [reflexivity|discriminate|exact Ecs].
    + assert (Hne : build_context_chunks docs <> []) by (rewrite Ecs; discriminate).
      rewrite (rag_answer_stream_generating self q k t log docs Hsearch Hne).
      cbn [snd].
      destruct (generate_response_stream_log (openai_client self)
                  (system_prompt self) q (build_context_chunks docs) t log)
        as [calls [Hlog [Hlen Hall]]].
      exists calls. split; [exact Hlog|]. split; [lia|].
      intros docs' Hdocs'. inversion Hdocs'. subst docs'. exact Hall.
  - exists []. rewrite app_nil_r.
    rewrite (rag_answer_stream_search_failure self q k t log m Hsearch).
    split; [reflexivity|]. split; [simpl; lia|]. intros docs Hdocs. discriminate.
Qed.

End CallLog.

(** X9: an invocation, in either mode, only appends to the log of backend calls
    and appends at most two calls: the first attempt and the single retry. *)
Theorem at_most_two_generation_calls `{PyBuiltins} (self : RAGPipeline)
    (q : str) (k : Z) (t : float) (log : call_log) :
  (exists calls,
      snd (rag_answer self q k t log) = log ++ calls
      /\ (List.length calls <= 2)%nat)
  /\ (exists calls,
         snd (rag_answer_stream self q k t log) = log ++ calls
         /\ (List.length calls <= 2)%nat).
Proof.
  split.
  - destruct (rag_answer_log self q k t log) as [calls [Hlog [Hlen _]]].
    now exists calls.
  - destruct (rag_answer_stream_log self q k t log) as [calls [Hlog [Hlen _]]].
    now exists calls.
Qed.

(** X10: every call an invocation makes, the retry included, names the configured
    deployment, asks for at most 800 completion tokens, carries the system
    prompt and the user prompt built from the budgeted fragments and the
    question, and has the temperature of the caller or none; the stream flag
    is set exactly in streaming mode. *)
Theorem generation_calls_carry_the_budgeted_prompt `{PyBuiltins}
    (self : RAGPipeline) (q : str) (k : Z) (t : float) (log : call_log)
    (docs : list doc) :
  search_documents_text_only (search_client self) q k = Returned docs ->
  (exists calls,
      snd (rag_answer self q k t log) = log ++ calls
      /\ Forall (call_of_invocation (openai_client self) false
                   (system_prompt self) q (build_context_chunks docs) t) calls)
  /\ (exists calls,
         snd (rag_answer_stream self q k t log) = log ++ calls
         /\ Forall (call_of_invocation (openai_client self) true
                      (system_prompt self) q (build_context_chunks docs) t)
              calls).
Proof.
  intros Hsearch. split.
  - destruct (rag_answer_log self q k t log) as [calls [Hlog [_ Hall]]].
    exists calls. split; [exact Hlog|exact (Hall docs Hsearch)].
  - destruct (rag_answer_stream_log self q k t log) as [calls [Hlog [_ Hall]]].
    exists calls. split; [exact Hlog|exact (Hall docs Hsearch)].
Qed.

Lemma generation_calls_carry_the_budgeted_prompt_witness :
  let docs := List.map doc_of_hit four_hits in
  search_documents_text_only (search_client four_docs_pipeline) question 5
  = Returned docs
  /\ exists calls,
       snd (@rag_answer ascii_builtins four_docs_pipeline question 5 0.5%float [])
       = [] ++ calls
       /\ Forall (call_of_invocation (openai_client four_docs_pipeline) false
                    (system_prompt four_docs_pipeline) question
                    (build_context_chunks docs) 0.5%float) calls.
Proof.
  intros docs.
  assert (Hsearch : search_documents_text_only
                      (search_client four_docs_pipeline) question 5
                    = Returned docs) by reflexivity.
  split; [exact Hsearch|].
  exact (proj1 (@generation_calls_carry_the_budgeted_prompt ascii_builtins
                  four_docs_pipeline question 5 0.5%float [] docs Hsearch)).
Defined.

(** ** Results are always well formed *)


(** ** Streaming *)

Lemma chunk_text_nonempty (chunk : completion_chunk) (y : str) :
  In y (chunk_text chunk) -> y <> [].
Proof.
  unfold chunk_text.
  destruct (chunk_choices chunk) as [|first rest]; [contradiction|].
  destruct (delta first) as [d|]; [|contradiction].
  destruct (delta_content d) as [text|]; [|contradiction].
  destruct text as [|c text']; [contradiction|].
  intros [Hy|[]]. subst y. discriminate.
Qed.

Lemma app_nonempty_l {A : Type} (a b : list A) : a <> [] -> a ++ b <> [].
Proof. destruct a; [congruence|discriminate]. Qed.

Lemma app_nonempty_r {A : Type} (a b : list A) : b <> [] -> a ++ b <> [].
Proof. destruct a, b; try congruence; discriminate. Qed.

Section StreamingFacts.

Context `{PyBuiltins}.

Lemma stream_error_chunk_nonempty (e : str) : stream_error_chunk e <> [].
Proof.
  unfold stream_error_chunk.
  destruct (is_rate_limit e); [apply nonempty_of_len; vm_compute; reflexivity|].
  destruct (contains _ e); apply app_nonempty_l; discriminate.
Qed.

Lemma streaming_result_nonempty (o : outcome chunk_stream) (y : str) :
  In y (streaming_result o) -> y <> [].
Proof.
  unfold streaming_result. destruct o as [s|e].
  - intros Hin. apply in_app_or in Hin. destruct Hin as [Hin|Hin].
    + apply in_flat_map in Hin. destruct Hin as [c [_ Hy]].
      exact (chunk_text_nonempty c y Hy).
    + destruct (stream_fault s) as [e|]; [|contradiction].
      destruct Hin as [Hy|[]]. subst y. apply stream_error_chunk_nonempty.
  - intros [Hy|[]]. subst y. apply stream_error_chunk_nonempty.
Qed.

Lemma caught_answer_nonempty (m : str) : caught_answer m <> [].
Proof.
  unfold caught_answer, rate_limit_answer, error_answer.
  destruct (mentions_rate_limit m); apply app_nonempty_l, nonempty_of_len;
    vm_compute; reflexivity.
Qed.

Lemma no_context_answer_nonempty (docs : list doc) :
  no_context_answer docs <> [].
Proof.
  unfold no_context_answer. apply app_nonempty_r, nonempty_of_len.
  vm_compute. reflexivity.
Qed.

(** X12: no chunk the streaming mode yields is empty, whatever path the
    invocation takes. *)
Theorem streamed_chunks_are_never_empty (self : RAGPipeline) (q : str)
    (k : Z) (t : float) (log : call_log) (y : str) :
  In y (fst (fst (rag_answer_stream self q k t log))) -> y <> [].
Proof.
  destruct (search_documents_text_only (search_client self) q k)
    as [docs|m] eqn:Hsearch.
  - destruct (build_context_chunks docs) as [|c cs] eqn:Ecs.
    + destruct docs as [|d rest].
      * rewrite (rag_answer_stream_no_results self q k t log Hsearch).
        intros [Hy|[]]. subst y. apply nonempty_of_len. vm_compute. reflexivity.
      * rewrite (rag_answer_stream_no_context self q k t log (d :: rest) Hsearch);
          [|discriminate|exact Ecs].
        intros [Hy|[]]. subst y. apply no_context_answer_nonempty.
    + assert (Hne : build_context_chunks docs <> []) by (rewrite Ecs; discriminate).
      rewrite (rag_answer_stream_generating self q k t log docs Hsearch Hne).
      cbn [fst]. rewrite generate_response_stream_calls.
      destruct (create_stream _ _ _) as [s|e].
      * cbn [fst]. apply streaming_result_nonempty.
      * destruct (temperature_unsupported e); cbn [fst].
        -- apply streaming_result_nonempty.
        -- intros [Hy|[]]. subst y. apply stream_error_chunk_nonempty.
  - rewrite (rag_answer_stream_search_failure self q k t log m Hsearch).
    intros [Hy|[]]. subst y. apply caught_answer_nonempty.
Qed.

(** X13: a stream that breaks on the way loses nothing of what it delivered: the
    texts received so far are yielded, then one diagnostic chunk, and the
    generator still returns the sources of all the retrieved documents. *)
Theorem broken_stream_keeps_partial_answer (self : RAGPipeline) (q : str)
    (k : Z) (t : float) (log : call_log) (docs : list doc)
    (chunks : list completion_chunk) (e : str) :
  search_documents_text_only (search_client self) q k = Returned docs ->
  build_context_chunks docs <> [] ->
  (forall l p,
      create_stream (client (openai_client self)) l p
      = Returned {| stream_chunks := chunks; stream_fault := Some e |}) ->
  fst (rag_answer_stream self q k t log)
  = (flat_map chunk_text chunks ++ [stream_error_chunk e],
     Returned (List.map source_info_of docs)).
Proof.
  intros Hsearch Hchunks Hs.
  rewrite (rag_answer_stream_generating self q k t log docs Hsearch Hchunks).
  cbn [fst]. rewrite generate_response_stream_calls, Hs, build_sources_map.
  reflexivity.
Qed.

(** X14: a backend that answers without any choice: the blocking mode falls back
    to its fixed text after a single call, the streaming mode yields nothing
    at all; both attach the sources of all the retrieved documents. *)
Theorem no_choices_fallback (self : RAGPipeline) (q : str) (k : Z)
    (t : float) (log : call_log) (docs : list doc)
    (chunks : list completion_chunk) :
  search_documents_text_only (search_client self) q k = Returned docs ->
  build_context_chunks docs <> [] ->
  (forall l p,
      create (client (openai_client self)) l p = Returned {| choices := [] |}) ->
  (forall l p,
      create_stream (client (openai_client self)) l p
      = Returned {| stream_chunks := chunks; stream_fault := None |}) ->
  Forall (fun c => chunk_choices c = []) chunks ->
  rag_answer self q k t log
  = (Returned {| answer := NO_RESPONSE;
                 sources := List.map source_info_of docs |},
     log ++ [build_call_params (openai_client self) false (system_prompt self)
               q (build_context_chunks docs) t])
  /\ fst (rag_answer_stream self q k t log)
     = ([], Returned (List.map source_info_of docs)).
Proof.
  intros Hsearch Hchunks Hb Hs Hnone. split.
  - rewrite (rag_answer_generating self q k t log docs Hsearch Hchunks).
    rewrite generate_response_calls, Hb. cbn [fst snd].
    unfold generated_answer. now rewrite build_sources_map.
  - rewrite (rag_answer_stream_generating self q k t log docs Hsearch Hchunks).
    cbn [fst]. rewrite generate_response_stream_calls, Hs, build_sources_map.
    cbn [fst]. unfold streaming_result. cbn [stream_chunks stream_fault].
    replace (flat_map chunk_text chunks) with (@nil str); [reflexivity|].
    clear Hs. induction Hnone as [|c cs Hc _ IH]; [reflexivity|].
    simpl. unfold chunk_text at 1. rewrite Hc. exact IH.
Qed.

End StreamingFacts.

Lemma streamed_chunks_are_never_empty_witness :
  In (lit "Paso")
     (fst (fst (@rag_answer_stream ascii_builtins broken_stream_pipeline
                  question 5 1%float [])))
  /\ lit "Paso" <> [].
Proof.
  assert (Hin : In (lit "Paso")
                  (fst (fst (@rag_answer_stream ascii_builtins
                               broken_stream_pipeline question 5 1%float []))))
    by (vm_compute; left; reflexivity).
  split; [exact Hin|].
  exact (@streamed_chunks_are_never_empty ascii_builtins broken_stream_pipeline
           question 5 1%float [] (lit "Paso") Hin).
Defined.

Lemma broken_stream_keeps_partial_answer_witness :
  let docs := [manual_doc (sample_text 5)] in
  fst (@rag_answer_stream ascii_builtins broken_stream_pipeline question 5
         1%float [])
  = ([lit "Paso"]
     ++ [@stream_error_chunk ascii_builtins (lit "Connection reset by peer")],
     Returned (List.map source_info_of docs)).
Proof.
  intros docs.
  assert (Hchunks : build_context_chunks docs <> [])
    by (vm_compute; discriminate).
  exact (@broken_stream_keeps_partial_answer ascii_builtins
           broken_stream_pipeline question 5 1%float [] docs
           [chunk_of (lit "Paso")] (lit "Connection reset by peer")
           eq_refl Hchunks (fun _ _ => eq_refl)).
Defined.

Lemma no_choices_fallback_witness :
  let docs := [manual_doc (sample_text 5)] in
  fst (@rag_answer ascii_builtins no_choices_pipeline question 5 1%float [])
  = Returned {| answer := NO_RESPONSE; sources := List.map source_info_of docs |}
  /\ fst (@rag_answer_stream ascii_builtins no_choices_pipeline question 5
            1%float [])
     = ([], Returned (List.map source_info_of docs)).
Proof.
  intros docs.
  assert (Hchunks : build_context_chunks docs <> [])
    by (vm_compute; discriminate).
  assert (Hnone : Forall (fun c => chunk_choices c = [])
                    [ {| chunk_choices := [] |} ]) by (repeat constructor).
  destruct (@no_choices_fallback ascii_builtins no_choices_pipeline question 5
              1%float [] docs [ {| chunk_choices := [] |} ]
              eq_refl Hchunks (fun _ _ => eq_refl) (fun _ _ => eq_refl) Hnone)
    as [Hb Hs].
  split; [|exact Hs]. now rewrite Hb.
Defined.

(** ** Sources through the search gateway *)




(** ** Loading the configuration *)

Section ConfigFacts.

Variable getenv : str -> option str.
Variable int_of_str : str -> outcome Z.

Lemma get_env_var_set (n : str) :
  truthy_value (getenv n) = true ->
  get_env_var getenv n true = Returned (getenv n).
Proof. intros Hset. unfold get_env_var. now rewrite Hset. Qed.

Lemma get_env_var_missing (n : str) :
  truthy_value (getenv n) = false ->
  get_env_var getenv n true = Raised (missing_variable_error n).
Proof. intros Hset. unfold get_env_var. now rewrite Hset. Qed.

Lemma or_default_nonempty (value : option str) (default : str) :
  default <> [] -> or_default value default <> [].
Proof.
  intros Hd. unfold or_default. destruct value as [s|]; [|exact Hd].
  destruct s; [exact Hd|discriminate].
Qed.

(** With the six required variables set, only the port can still fail. *)
Lemma load_config_when_complete :
  Forall (fun n => truthy_value (getenv n) = true) REQUIRED_VARIABLES ->
  load_config getenv int_of_str
  = and_then
      (match getenv (lit "STREAMLIT_SERVER_PORT") with
       | Some s =>
           if truthy s then and_then (int_of_str s) (fun n => Returned (Some n))
           else Returned None
       | None => Returned None
       end)
      (fun port =>
         Returned
           {| azure_search :=
                {| search_endpoint := getenv (lit "AZURE_SEARCH_ENDPOINT");
                   search_api_key := getenv (lit "AZURE_SEARCH_API_KEY");
                   search_index_name := getenv (lit "AZURE_SEARCH_INDEX") |};
              azure_openai :=
                {| openai_endpoint := getenv (lit "AZURE_OPENAI_ENDPOINT");
                   openai_api_key := getenv (lit "AZURE_OPENAI_API_KEY");
                   openai_deployment_name :=
                     getenv (lit "AZURE_OPENAI_DEPLOYMENT") |};
              azure_speech :=
                if truthy_value (getenv (lit "AZURE_SPEECH_API_KEY"))
                   && truthy_value (getenv (lit "AZURE_SPEECH_REGION"))
                then
                  Some {| speech_api_key := getenv (lit "AZURE_SPEECH_API_KEY");
                          speech_region := getenv (lit "AZURE_SPEECH_REGION");
                          speech_language :=
                            or_default (getenv (lit "AZURE_SPEECH_LANGUAGE"))
                              (lit "es-ES");
                          speech_voice_name :=
                            getenv (lit "AZURE_SPEECH_VOICE") |}
                else None;
              streamlit_port := port |}).
Proof.
  unfold REQUIRED_VARIABLES. intros Hall.
  inversion_clear Hall as [|? ? H1 Hall1]. inversion_clear Hall1 as [|? ? H2 Hall2].
  inversion_clear Hall2 as [|? ? H3 Hall3]. inversion_clear Hall3 as [|? ? H4 Hall4].
  inversion_clear Hall4 as [|? ? H5 Hall5]. inversion_clear Hall5 as [|? ? H6 _].
  unfold load_config.
  rewrite (get_env_var_set _ H1), (get_env_var_set _ H2), (get_env_var_set _ H3),
    (get_env_var_set _ H4), (get_env_var_set _ H5), (get_env_var_set _ H6).
  reflexivity.
Qed.

Lemma load_config_requires_all (cfg : AppConfig) :
  load_config getenv int_of_str = Returned cfg ->
  Forall (fun n => truthy_value (getenv n) = true) REQUIRED_VARIABLES.
Proof.
  unfold load_config, REQUIRED_VARIABLES. intros Hret.
  repeat
    match goal with
    | |- Forall _ [] => constructor
    | |- Forall _ (?n :: _) =>
        destruct (truthy_value (getenv n)) eqn:?;
        [ constructor; [assumption|];
          rewrite (get_env_var_set n) in Hret by assumption;
          cbn [and_then] in Hret
        | rewrite (get_env_var_missing n) in Hret by assumption;
          discriminate Hret ]
    end.
Qed.

(** X16: [load_config] fails on the first required variable, in the order it
    reads them, that is unset or set to the empty string, and its error
    names that variable. *)
Theorem load_config_names_first_missing (pre post : list str) (v : str) :
  REQUIRED_VARIABLES = pre ++ v :: post ->
  Forall (fun n => truthy_value (getenv n) = true) pre ->
  truthy_value (getenv v) = false ->
  load_config getenv int_of_str = Raised (missing_variable_error v).
Proof.
  unfold REQUIRED_VARIABLES, load_config. intros Heq Hpre Hv.
  repeat
    (destruct pre as [|p pre]; cbn [app] in Heq;
     [ injection Heq as Hhead Hpost; subst v;
       rewrite (get_env_var_missing _ Hv); reflexivity
     | first [ discriminate Heq
             | injection Heq as Hhead Heq; subst p;
               inversion_clear Hpre as [|? ? Hp Hpre'];
               rewrite (get_env_var_set _ Hp); cbn [and_then]; clear Hp;
               rename Hpre' into Hpre ] ]).
  destruct pre; cbn [app] in Heq; discriminate Heq.
Qed.

(** X17: a configuration that [load_config] returns has its six required
    settings non-empty and taken from the environment; the speech settings
    are present exactly when both the speech key and region are non-empty,
    and their language is never empty (["es-ES"] by default). *)
Theorem load_config_returns_validated_settings (cfg : AppConfig) :
  load_config getenv int_of_str = Returned cfg ->
  Forall (fun n => truthy_value (getenv n) = true) REQUIRED_VARIABLES
  /\ azure_search cfg
     = {| search_endpoint := getenv (lit "AZURE_SEARCH_ENDPOINT");
          search_api_key := getenv (lit "AZURE_SEARCH_API_KEY");
          search_index_name := getenv (lit "AZURE_SEARCH_INDEX") |}
  /\ azure_openai cfg
     = {| openai_endpoint := getenv (lit "AZURE_OPENAI_ENDPOINT");
          openai_api_key := getenv (lit "AZURE_OPENAI_API_KEY");
          openai_deployment_name := getenv (lit "AZURE_OPENAI_DEPLOYMENT") |}
  /\ (azure_speech cfg <> None <->
      truthy_value (getenv (lit "AZURE_SPEECH_API_KEY")) = true
      /\ truthy_value (getenv (lit "AZURE_SPEECH_REGION")) = true)
  /\ (forall sc,
         azure_speech cfg = Some sc ->
         speech_language sc
         = or_default (getenv (lit "AZURE_SPEECH_LANGUAGE")) (lit "es-ES")
         /\ speech_language sc <> []).
Proof.
  intros Hret. pose proof (load_config_requires_all cfg Hret) as Hall.
  split; [exact Hall|].
  rewrite (load_config_when_complete Hall) in Hret.
  destruct (match getenv (lit "STREAMLIT_SERVER_PORT") with
            | Some s => _ | None => _ end) as [port|e]; [|discriminate Hret].
  cbn [and_then] in Hret. inversion Hret as [Hcfg]. clear Hret.
  cbn [azure_search azure_openai azure_speech].
  split; [reflexivity|]. split; [reflexivity|].
  destruct (truthy_value (getenv (lit "AZURE_SPEECH_API_KEY")));
    destruct (truthy_value (getenv (lit "AZURE_SPEECH_REGION")));
    cbn [andb]; split;
    try (split; [intros _; now split|intros _; discriminate]);
    try (split; [intros Hn; now elim Hn|intros [Ha Hb]; discriminate]);
    intros sc Hsc; try discriminate Hsc.
  inversion Hsc. cbn [speech_language]. split; [reflexivity|].
  apply or_default_nonempty, nonempty_of_len. vm_compute. reflexivity.
Qed.

(** X18: with the required variables set, a port that is not a number makes
    [load_config] fail with the error of [int]; without a port (unset or
    empty) it succeeds with no port. *)
Theorem load_config_port_handling :
  Forall (fun n => truthy_value (getenv n) = true) REQUIRED_VARIABLES ->
  (forall s e,
      getenv (lit "STREAMLIT_SERVER_PORT") = Some s -> s <> [] ->
      int_of_str s = Raised e ->
      load_config getenv int_of_str = Raised e)
  /\ (forall s n,
         getenv (lit "STREAMLIT_SERVER_PORT") = Some s -> s <> [] ->
         int_of_str s = Returned n ->
         exists cfg, load_config getenv int_of_str = Returned cfg
                     /\ streamlit_port cfg = Some n)
  /\ (truthy_value (getenv (lit "STREAMLIT_SERVER_PORT")) = false ->
      exists cfg, load_config getenv int_of_str = Returned cfg
                  /\ streamlit_port cfg = None).
Proof.
  intros Hall. rewrite (load_config_when_complete Hall). repeat split.
  - intros s e Hs Hne He. rewrite Hs.
    destruct s; [now elim Hne|]. cbn [truthy]. now rewrite He.
  - intros s n Hs Hne Hn. rewrite Hs.
    destruct s; [now elim Hne|]. cbn [truthy]. rewrite Hn.
    eexists. split; reflexivity.
  - intros Hport. destruct (getenv (lit "STREAMLIT_SERVER_PORT")) as [s|].
    + cbn [truthy_value] in Hport. rewrite Hport. eexists. split; reflexivity.
    + eexists. split; reflexivity.
Qed.

End ConfigFacts.

Lemma load_config_names_first_missing_witness :
  truthy_value (lookup_env env_with_empty_index (lit "AZURE_SEARCH_INDEX"))
  = false
  /\ load_config (lookup_env env_with_empty_index) no_int
     = Raised (missing_variable_error (lit "AZURE_SEARCH_INDEX")).
Proof.
  assert (Hv : truthy_value
                 (lookup_env env_with_empty_index (lit "AZURE_SEARCH_INDEX"))
               = false) by (vm_compute; reflexivity).
  split; [exact Hv|].
  apply (load_config_names_first_missing (lookup_env env_with_empty_index)
           no_int
           [lit "AZURE_SEARCH_ENDPOINT"; lit "AZURE_SEARCH_API_KEY"]
           [lit "AZURE_OPENAI_ENDPOINT"; lit "AZURE_OPENAI_API_KEY";
            lit "AZURE_OPENAI_DEPLOYMENT"]
           (lit "AZURE_SEARCH_INDEX")).
  - reflexivity.
  - repeat constructor; vm_compute; reflexivity.
  - exact Hv.
Defined.

Lemma full_env_is_complete :
  Forall (fun n => truthy_value (lookup_env full_env n) = true)
    REQUIRED_VARIABLES.
Proof. unfold REQUIRED_VARIABLES. repeat constructor; vm_compute; reflexivity. Qed.

Lemma load_config_returns_validated_settings_witness :
  exists cfg,
    load_config (lookup_env full_env) no_int = Returned cfg
    /\ azure_openai cfg
       = {| openai_endpoint := Some (lit "https://openai.example.net");
            openai_api_key := Some (lit "openai-key");
            openai_deployment_name := Some (lit "gpt-deployment") |}
    /\ azure_speech cfg <> None.
Proof.
  destruct (load_config (lookup_env full_env) no_int) as [cfg|e] eqn:Hload;
    [|vm_compute in Hload; discriminate Hload].
  exists cfg. split; [reflexivity|].
  destruct (load_config_returns_validated_settings (lookup_env full_env) no_int
              cfg Hload) as [_ [_ [Hopenai [Hspeech _]]]].
  split.
  - rewrite Hopenai. vm_compute. reflexivity.
  - apply Hspeech. split; vm_compute; reflexivity.
Defined.

Lemma load_config_port_handling_witness :
  exists cfg,
    load_config (lookup_env full_env) no_int = Returned cfg
    /\ streamlit_port cfg = None.
Proof.
  apply (load_config_port_handling (lookup_env full_env) no_int
           full_env_is_complete).
  vm_compute. reflexivity.
Defined.

(** ** The speech gateway *)

(** X19: a configuration loaded without a speech language and without a voice
    makes the speech client recognise and speak Spanish (es-ES) with the
    voice es-ES-ElviraNeural. *)
Theorem speech_defaults_are_spanish (getenv : str -> option str)
    (int_of_str : str -> outcome Z) (cfg : AppConfig) (sc : AzureSpeechConfig) :
  load_config getenv int_of_str = Returned cfg ->
  azure_speech cfg = Some sc ->
  truthy_value (getenv (lit "AZURE_SPEECH_LANGUAGE")) = false ->
  truthy_value (getenv (lit "AZURE_SPEECH_VOICE")) = false ->
  let settings := speech_client_init sc in
  speech_recognition_language settings = lit "es-ES"
  /\ speech_synthesis_language settings = lit "es-ES"
  /\ speech_synthesis_voice_name settings = lit "es-ES-ElviraNeural"
  /\ subscription settings = getenv (lit "AZURE_SPEECH_API_KEY")
  /\ region settings = getenv (lit "AZURE_SPEECH_REGION").
Proof.
  intros Hload Hsc Hlang Hvoice settings.
  pose proof (load_config_requires_all getenv int_of_str cfg Hload) as Hall.
  rewrite (load_config_when_complete getenv int_of_str Hall) in Hload.
  destruct (match getenv (lit "STREAMLIT_SERVER_PORT") with
            | Some s => _ | None => _ end) as [port|e]; [|discriminate Hload].
  cbn [and_then] in Hload. inversion Hload as [Hcfg]. clear Hload.
  rewrite <- Hcfg in Hsc. cbn [azure_speech] in Hsc.
  destruct (truthy_value (getenv (lit "AZURE_SPEECH_API_KEY"))
            && truthy_value (getenv (lit "AZURE_SPEECH_REGION")));
    [|discriminate Hsc].
  inversion Hsc as [Hsc']. clear Hsc. subst sc.
  assert (Hdefault : or_default (getenv (lit "AZURE_SPEECH_LANGUAGE"))
                       (lit "es-ES") = lit "es-ES").
  { unfold or_default. destruct (getenv (lit "AZURE_SPEECH_LANGUAGE")) as [s|];
      [|reflexivity].
    cbn [truthy_value] in Hlang. now rewrite Hlang. }
  assert (Hname : or_default (getenv (lit "AZURE_SPEECH_VOICE"))
                    (lit "es-ES-ElviraNeural") = lit "es-ES-ElviraNeural").
  { unfold or_default. destruct (getenv (lit "AZURE_SPEECH_VOICE")) as [s|];
      [|reflexivity].
    cbn [truthy_value] in Hvoice. now rewrite Hvoice. }
  unfold settings, speech_client_init.
  cbn [speech_language speech_voice_name speech_api_key speech_region
       speech_recognition_language speech_synthesis_language
       speech_synthesis_voice_name subscription region].
  rewrite Hdefault, Hname.
  replace (startswith (lit "es") (lit "es-ES")) with true
    by (vm_compute; reflexivity).
  repeat split; reflexivity.
Qed.

Lemma speech_defaults_are_spanish_witness :
  exists cfg sc,
    load_config (lookup_env full_env) no_int = Returned cfg
    /\ azure_speech cfg = Some sc
    /\ speech_synthesis_voice_name (speech_client_init sc)
       = lit "es-ES-ElviraNeural".
Proof.
  destruct (load_config (lookup_env full_env) no_int) as [cfg|e] eqn:Hload;
    [|vm_compute in Hload; discriminate Hload].
  destruct (azure_speech cfg) as [sc|] eqn:Hsc.
  - exists cfg, sc. split; [reflexivity|]. split; [exact Hsc|].
    assert (Hlang : truthy_value
                      (lookup_env full_env (lit "AZURE_SPEECH_LANGUAGE")) = false)
      by (vm_compute; reflexivity).
    assert (Hvoice : truthy_value
                       (lookup_env full_env (lit "AZURE_SPEECH_VOICE")) = false)
      by (vm_compute; reflexivity).
    exact (proj1 (proj2 (proj2
             (speech_defaults_are_spanish (lookup_env full_env) no_int cfg sc
                Hload Hsc Hlang Hvoice)))).
  - exfalso. vm_compute in Hload. inversion Hload as [Hcfg].
    rewrite <- Hcfg in Hsc. discriminate Hsc.
Defined.

Lemma rewrap_raised {A : Type} (prefix : str) (o : outcome A) (m : str) :
  rewrap prefix o = Raised m -> startswith prefix m = true.
Proof.
  destruct o as [a|e]; [discriminate|]. cbn [rewrap]. intros Heq.
  inversion Heq. apply startswith_app.
Qed.

Lemma recognition_outcome_cases (self_result : recognition_result) :
  match recognition_outcome self_result with
  | Returned (Some text) =>
      recognition_reason_of self_result = RecognizedSpeech
      /\ text = recognition_text self_result
  | Returned None =>
      recognition_reason_of self_result = NoMatch
      \/ (recognition_reason_of self_result = RecognitionOther
          /\ recognition_cancellation self_result = None)
  | Raised m =>
      exists details,
        recognition_cancellation self_result = Some details
        /\ m = lit "Error en reconocimiento de voz: " ++ cancel_reason details
               ++ lit " - " ++ cancel_error_details details
  end.
Proof.
  unfold recognition_outcome.
  destruct (recognition_reason_of self_result); [now split|now left|].
  destruct (recognition_cancellation self_result) as [details|].
  - now exists details.
  - right. now split.
Qed.

(** X20: speech recognition, from a buffer or from a file: a text is returned
    only for recognised speech; no match, and a cancellation without
    details, give [None] without error; a cancellation with details and any
    SDK failure are raised under the prefix of the method. *)
Theorem speech_to_text_outcomes (self : AzureSpeechClient) (audio : bytes)
    (audio_file_path : str) :
  match speech_to_text self audio with
  | Returned (Some text) =>
      exists result,
        recognize_once_stream (speech_sdk self) (speech_config self) audio
        = Returned result
        /\ recognition_reason_of result = RecognizedSpeech
        /\ text = recognition_text result
  | Returned None =>
      exists result,
        recognize_once_stream (speech_sdk self) (speech_config self) audio
        = Returned result
        /\ recognition_reason_of result <> RecognizedSpeech
  | Raised m => startswith (lit "Error al convertir voz a texto: ") m = true
  end
  /\ match speech_to_text_from_file self audio_file_path with
     | Returned (Some text) =>
         exists result,
           recognize_once_file (speech_sdk self) (speech_config self)
             audio_file_path = Returned result
           /\ recognition_reason_of result = RecognizedSpeech
           /\ text = recognition_text result
     | Returned None =>
         exists result,
           recognize_once_file (speech_sdk self) (speech_config self)
             audio_file_path = Returned result
           /\ recognition_reason_of result <> RecognizedSpeech
     | Raised m =>
         startswith (lit "Error al convertir voz a texto desde archivo: ") m
         = true
     end.
Proof.
  split.
  - destruct (speech_to_text self audio) as [[text|]|m] eqn:Hrun;
      [| |exact (rewrap_raised _ _ _ Hrun)];
      unfold speech_to_text, rewrap, and_then in Hrun;
      destruct (recognize_once_stream _ _ _) as [result|e];
      try discriminate Hrun;
      pose proof (recognition_outcome_cases result) as Hcases;
      destruct (recognition_outcome result) as [[text'|]|m'];
      try discriminate Hrun; exists result; (split; [reflexivity|]).
    + inversion Hrun. subst text'. exact Hcases.
    + destruct Hcases as [Hr|[Hr _]]; rewrite Hr; discriminate.
  - destruct (speech_to_text_from_file self audio_file_path) as [[text|]|m]
      eqn:Hrun; [| |exact (rewrap_raised _ _ _ Hrun)];
      unfold speech_to_text_from_file, rewrap, and_then in Hrun;
      destruct (recognize_once_file _ _ _) as [result|e];
      try discriminate Hrun;
      pose proof (recognition_outcome_cases result) as Hcases;
      destruct (recognition_outcome result) as [[text'|]|m'];
      try discriminate Hrun; exists result; (split; [reflexivity|]).
    + inversion Hrun. subst text'. exact Hcases.
    + destruct Hcases as [Hr|[Hr _]]; rewrite Hr; discriminate.
Qed.

(** A cancelled recognition with details is reported with both wrappings:
    the prefix of the method, then the reason and the details. *)
Lemma cancelled_recognition_is_reported (self : AzureSpeechClient)
    (audio : bytes) (result : recognition_result)
    (details : cancellation_details) :
  recognize_once_stream (speech_sdk self) (speech_config self) audio
  = Returned result ->
  recognition_reason_of result = RecognitionOther ->
  recognition_cancellation result = Some details ->
  speech_to_text self audio
  = Raised (lit "Error al convertir voz a texto: "
            ++ lit "Error en reconocimiento de voz: " ++ cancel_reason details
            ++ lit " - " ++ cancel_error_details details).
Proof.
  intros Hsdk Hreason Hdetails.
  unfold speech_to_text, and_then, recognition_outcome.
  now rewrite Hsdk, Hreason, Hdetails.
Qed.

